(** * keycloak-proxy: the OAuth flow handlers of [handlers.go]

    A shallow embedding of the request handlers of the proxy
    ([oauthAuthorizationHandler], [oauthCallbackHandler], [loginHandler],
    [logoutHandler], [expirationHandler], [retrieveRefreshToken],
    [getRedirectionURL]) and the properties of the specification that
    concern them.

    A handler is a computation over the gin context.  What it does to the
    outside world (log lines, response writes, cookies, calls to the
    provider and to the store) is recorded, in program order, as a list of
    events; [return] in the middle of a handler is an early exit of the
    computation.  Functions of the repository that live outside
    [handlers.go], and the library calls with an outcome the handler
    branches on, are the fields of the class [Externals]. *)

From Stdlib Require Import ZArith String Ascii List Lia Bool.
From stdpp Require Import base option strings gmap.
Import ListNotations.

Open Scope string_scope.

(** ** Go values *)

(** [time.Time] as nanoseconds on the time line, [time.Duration] as the
    [int64] count of nanoseconds it is. *)
Definition Time := Z.
Definition Duration := Z.

Definition minDuration : Duration := (- 2 ^ 63)%Z.
Definition maxDuration : Duration := (2 ^ 63 - 1)%Z.

(** [int64] wrap-around, for arithmetic on durations. *)
Definition wrap64 (z : Z) : Z := ((z + 2 ^ 63) mod 2 ^ 64 - 2 ^ 63)%Z.

Definition Nanosecond : Duration := 1%Z.
Definition Second : Duration := (1000000000 * Nanosecond)%Z.
Definition Hour : Duration := (3600 * Second)%Z.

(** [t.Sub(u)]: the difference, or the largest (smallest) duration when the
    difference does not fit. *)
Definition Sub (t u : Time) : Duration :=
  let d := (t - u)%Z in
  if (d <? minDuration)%Z then minDuration
  else if (maxDuration <? d)%Z then maxDuration
  else d.

(** [a * b] on [time.Duration]. *)
Definition mulDuration (a b : Duration) : Duration := wrap64 (a * b).

(** A Go [error] is kept as the text of [err.Error()]; a call that returns
    [(v, err)] is a [result]. *)
Definition error := string.

Inductive result (A : Type) : Type :=
| Ok (v : A)
| Err (err : error).
Arguments Ok {A} v.
Arguments Err {A} err.

(** [net/http] status codes used by the handlers. *)
Definition StatusOK : Z := 200.
Definition StatusNoContent : Z := 204.
Definition StatusFound : Z := 302.
Definition StatusBadRequest : Z := 400.
Definition StatusUnauthorized : Z := 401.
Definition StatusForbidden : Z := 403.
Definition StatusNotAcceptable : Z := 406.
Definition StatusInternalServerError : Z := 500.
Definition StatusNotImplemented : Z := 501.

(** [oauth2.ErrorInvalidGrant] of go-oidc. *)
Definition ErrorInvalidGrant : string := "invalid_grant".

(** [strings.HasPrefix s p] *)
Definition HasPrefix (s p : string) : bool := String.prefix p s.

(** [url.Values] and [http.Header]: a key maps to the list of its values,
    [Get] is the first of them, or [""] when the key has none. *)
Definition Values_Get (m : gmap string (list string)) (key : string) : string :=
  match m !! key with
  | Some (v :: _) => v
  | _ => ""
  end.

(** The parts of [*gin.Context] that the handlers read. *)
Record Context := {
  Request_TLS : bool;                        (* cx.Request.TLS != nil *)
  Request_Host : string;                     (* cx.Request.Host *)
  Request_RemoteAddr : string;               (* cx.Request.RemoteAddr *)
  Request_Header : gmap string (list string);   (* cx.Request.Header *)
  Request_Query : gmap string (list string);    (* cx.Request.URL.Query() *)
  Request_PostForm : gmap string (list string)  (* body parameters *)
}.

(** [cx.Request.URL.Query().Get(key)], which is also [cx.Query(key)]. *)
Definition Query (cx : Context) (key : string) : string :=
  Values_Get (Request_Query cx) key.

(** [cx.Request.Header.Get(key)], for a key in canonical form. *)
Definition Header_Get (cx : Context) (key : string) : string :=
  Values_Get (Request_Header cx) key.

(** [cx.Request.PostFormValue(key)] *)
Definition PostFormValue (cx : Context) (key : string) : string :=
  Values_Get (Request_PostForm cx) key.

(** The fields of [r.config] that [handlers.go] reads. *)
Record Config := {
  RedirectionURL : string;
  SkipTokenVerification : bool;
  Scopes : list string;
  SignInPage : string;
  Tags : list (string * string);
  EnableRefreshTokens : bool;
  EncryptionKey : string;
  EnableLoginHandler : bool;
  RevocationEndpoint : string;
  ClientID : string;
  ClientSecret : string
}.

(** [r *oauthProxy]: the configuration and the discovered provider. *)
Record oauthProxy := {
  config : Config;
  idp_EndSessionEndpoint : string      (* r.idp.EndSessionEndpoint.String() *)
}.

(** [identity] and the token sets, by the fields the handlers use. *)
Record Identity := {
  Email : string;
  ExpiresAt : Time
}.

(** The answer of the code exchange ([oauth2.TokenResponse]). *)
Record TokenResponse := {
  resp_IDToken : string;
  resp_AccessToken : string;
  resp_RefreshToken : string;
  resp_Expires : Z;
  resp_Scope : string
}.

(** [tokenResponse], the JSON document of the login handler. *)
Record tokenResponse := {
  json_IDToken : string;
  json_AccessToken : string;
  json_RefreshToken : string;
  json_ExpiresIn : Z;
  json_Scope : string
}.

(** An outgoing [http.Request], as [logoutHandler] builds it. *)
Record HttpRequest := {
  req_Method : string;
  req_URL : string;
  req_Body : string;
  req_BasicAuth : option (string * string);
  req_ContentType : string
}.

(** An [http.Response], by status and body. *)
Record HttpResponse := {
  StatusCode : Z;
  Body : string
}.

(** ** Events *)

(** logrus levels *)
Inductive Level := DebugLevel | InfoLevel | WarnLevel | ErrorLevel.

Inductive event :=
| Log (lvl : Level) (msg : string)
| AbortWithStatus (code : Z)                      (* cx.AbortWithStatus *)
| AbortWithError (code : Z) (err : option error)  (* cx.AbortWithError, err may be nil *)
| Redirect (code : Z) (location : string)         (* cx.Redirect *)
| HTML (code : Z) (name : string) (model : list (string * string))
| JSON (code : Z) (body : tokenResponse)
| DropAccessTokenCookie (value : string) (ttl : Duration)
| DropRefreshTokenCookie (value : string) (ttl : Duration)
| ClearAllCookies
| NewOAuthClient (redirection : string)           (* r.getOAuthClient *)
| GetOAuthClient                                  (* r.client.OAuthClient() *)
| ExchangeCode (code : string)                    (* exchangeAuthenticationCode *)
| PasswordGrant (username password : string) (answer : result TokenResponse)
| StoreRefreshToken (encrypted : string)
| SpawnDeleteRefreshToken                         (* go func() { r.DeleteRefreshToken } *)
| HttpDo (request : HttpRequest) (answer : result HttpResponse).

(** ** The handler monad *)

(** State of a running handler: what it has done so far, and how many times
    it has read the clock. *)
Record hstate := {
  events : list event;
  reads : nat
}.

Definition start : hstate := {| events := []; reads := 0 |}.

(** A step gives the next state and [Some] value, or [None] when the
    handler has returned. *)
Definition Handler (A : Type) : Type := hstate -> hstate * option A.

Definition ret {A} (a : A) : Handler A := fun s => (s, Some a).

Definition bind {A B} (m : Handler A) (k : A -> Handler B) : Handler B :=
  fun s =>
    match m s with
    | (s', Some a) => k a s'
    | (s', None) => (s', None)
    end.

(** Go's [return] inside a handler. *)
Definition returns {A} : Handler A := fun s => (s, None).

Definition emit (e : event) : Handler unit :=
  fun s => ({| events := events s ++ [e]; reads := reads s |}, Some tt).

Declare Scope handler_scope.
Delimit Scope handler_scope with handler.
Notation "x <- m ;; k" := (bind m (fun x => k))
  (at level 100, m at next level, right associativity) : handler_scope.
Notation "m ;; k" := (bind m (fun _ => k))
  (at level 100, right associativity) : handler_scope.
Open Scope handler_scope.

(** [if b { m }] *)
Definition when (b : bool) (m : Handler unit) : Handler unit :=
  if b then m else ret tt.

(** [v, err := f(); if err != nil { h(err); return }] *)
Definition orElse {A} (r : result A) (h : error -> Handler unit) : Handler A :=
  match r with
  | Ok v => ret v
  | Err err => h err ;; returns
  end.

(** The events of a whole run. *)
Definition run (h : Handler unit) : list event := events (fst (h start)).

(** ** What the client sees *)

(** The status an event writes, if it writes the response header. *)
Definition written (e : event) : option Z :=
  match e with
  | AbortWithStatus code | AbortWithError code _ | Redirect code _
  | HTML code _ _ | JSON code _ => Some code
  | _ => None
  end.

(** gin writes the header at the first write; a handler that writes nothing
    leaves the writer's default status, 200. *)
Fixpoint responseStatus (tr : list event) : Z :=
  match tr with
  | [] => StatusOK
  | e :: tr' => match written e with Some code => code | None => responseStatus tr' end
  end.

(** ** Library functions of Go with a fixed meaning *)

(** [encoding/base64], the standard encoding with padding. *)
Module Base64.

Definition encodeStd : string :=
  "ABCDEFGHIJKLMNOPQRSTUVWXYZabcdefghijklmnopqrstuvwxyz0123456789+/".

Definition padChar : ascii := "="%char.

(** The character of a 6-bit value. *)
Definition encodeChar (v : N) : ascii :=
  match String.get (N.to_nat v) encodeStd with
  | Some c => c
  | None => padChar
  end.

(** The decode map: the 6-bit value of a character of the alphabet. *)
Definition decodeChar (c : ascii) : option N :=
  let n := N_of_ascii c in
  if ((65 <=? n) && (n <=? 90))%N then Some (n - 65)%N
  else if ((97 <=? n) && (n <=? 122))%N then Some (n - 97 + 26)%N
  else if ((48 <=? n) && (n <=? 57))%N then Some (n - 48 + 52)%N
  else if (n =? 43)%N then Some 62%N
  else if (n =? 47)%N then Some 63%N
  else None.

Definition byte (n : N) : ascii := ascii_of_N (n mod 256).

Definition isPad (c : ascii) : bool := Ascii.eqb c padChar.

(** The decoder skips carriage returns and line feeds. *)
Definition isNewline (c : ascii) : bool :=
  Ascii.eqb c "010"%char || Ascii.eqb c "013"%char.

(** One quantum is four characters and gives three bytes; the last one
    may end in one or two padding characters and gives two bytes or one.
    Anything else is corrupt input. *)
Fixpoint decodeQuanta (src : list ascii) : option (list ascii) :=
  match src with
  | [] => Some []
  | a :: b :: c :: d :: rest =>
      match decodeChar a, decodeChar b with
      | Some x, Some y =>
          match decodeChar c, decodeChar d with
          | Some z, Some w =>
              let val := (N.shiftl x 18 + N.shiftl y 12 + N.shiftl z 6 + w)%N in
              match decodeQuanta rest with
              | Some out =>
                  Some (byte (N.shiftr val 16) :: byte (N.shiftr val 8) :: byte val :: out)
              | None => None
              end
          | Some z, None =>
              let val := (N.shiftl x 18 + N.shiftl y 12 + N.shiftl z 6)%N in
              match rest with
              | [] => if isPad d
                      then Some [byte (N.shiftr val 16); byte (N.shiftr val 8)]
                      else None
              | _ :: _ => None
              end
          | None, _ =>
              let val := (N.shiftl x 18 + N.shiftl y 12)%N in
              match rest with
              | [] => if isPad c && isPad d
                      then Some [byte (N.shiftr val 16)]
                      else None
              | _ :: _ => None
              end
          end
      | _, _ => None
      end
  | _ => None
  end.

(** [base64.StdEncoding.DecodeString] *)
Definition DecodeString (s : string) : result string :=
  let src := List.filter (fun c => negb (isNewline c)) (list_ascii_of_string s) in
  match decodeQuanta src with
  | Some out => Ok (string_of_list_ascii out)
  | None => Err "illegal base64 data"
  end.

(** [base64.StdEncoding.EncodeToString] *)
Fixpoint encodeQuanta (src : list ascii) : list ascii :=
  match src with
  | [] => []
  | [a] =>
      let val := N.shiftl (N_of_ascii a) 16 in
      [encodeChar (N.shiftr val 18 mod 64); encodeChar (N.shiftr val 12 mod 64);
       padChar; padChar]
  | [a; b] =>
      let val := (N.shiftl (N_of_ascii a) 16 + N.shiftl (N_of_ascii b) 8)%N in
      [encodeChar (N.shiftr val 18 mod 64); encodeChar (N.shiftr val 12 mod 64);
       encodeChar (N.shiftr val 6 mod 64); padChar]
  | a :: b :: c :: rest =>
      let val := (N.shiftl (N_of_ascii a) 16 + N.shiftl (N_of_ascii b) 8 + N_of_ascii c)%N in
      encodeChar (N.shiftr val 18 mod 64) :: encodeChar (N.shiftr val 12 mod 64) ::
      encodeChar (N.shiftr val 6 mod 64) :: encodeChar (val mod 64) ::
      encodeQuanta rest
  end.

Definition EncodeToString (s : string) : string :=
  string_of_list_ascii (encodeQuanta (list_ascii_of_string s)).

End Base64.

(** [net/url], query escaping. *)
Module URL.

Definition upperhex : string := "0123456789ABCDEF".

Definition hexDigit (n : N) : ascii :=
  match String.get (N.to_nat n) upperhex with
  | Some c => c
  | None => "0"%char
  end.

(** Letters, digits and [-_.~] stay as they are. *)
Definition unreserved (c : ascii) : bool :=
  let n := N_of_ascii c in
  ((65 <=? n) && (n <=? 90) || (97 <=? n) && (n <=? 122) || (48 <=? n) && (n <=? 57)
   || (n =? 45) || (n =? 95) || (n =? 46) || (n =? 126))%N.

Fixpoint escape (s : string) : string :=
  match s with
  | EmptyString => EmptyString
  | String c rest =>
      if unreserved c then String c (escape rest)
      else if Ascii.eqb c " "%char then String "+"%char (escape rest)
      else
        let n := N_of_ascii c in
        String "%"%char (String (hexDigit (N.shiftr n 4)) (String (hexDigit (n mod 16))
          (escape rest)))
  end.

(** [url.QueryEscape] *)
Definition QueryEscape (s : string) : string := escape s.

End URL.

(** ** The rest of the proxy *)

(** [userContext], by the fields the handlers use. *)
Record userContext (JWT : Type) := {
  token : JWT;
  email : string
}.
Arguments token {JWT} u.
Arguments email {JWT} u.

(** What [handlers.go] calls and does not define: the other files of the
    repository, go-oidc, and the library calls whose outcome a handler
    branches on.  A handler is verified for every implementation of them. *)
Class Externals := {
  oauthClient : Type;                                  (* *oauth2.Client *)
  JWT : Type;                                          (* jose.JWT *)
  Encode : JWT -> string;                              (* token.Encode() *)
  clock : nat -> Time;                                 (* the n-th time.Now() of a run *)
  getOAuthClient : oauthProxy -> string -> result oauthClient;
  OAuthClient : oauthProxy -> result oauthClient;      (* r.client.OAuthClient() *)
  AuthCodeURL : oauthClient -> string -> string -> string -> string;
  exchangeAuthenticationCode : oauthClient -> string -> result TokenResponse;
  UserCredsToken : oauthClient -> string -> string -> result TokenResponse;
  parseToken : string -> result (JWT * Identity);
  verifyToken : oauthProxy -> JWT -> option error;
  encodeText : string -> string -> result string;
  decodeText : string -> string -> result string;
  getAccessCookieExpiration : oauthProxy -> JWT -> string -> Duration;
  useStore : oauthProxy -> bool;
  saveRefreshToken : oauthProxy -> JWT -> string -> option error;   (* r.StoreRefreshToken *)
  GetRefreshToken : oauthProxy -> JWT -> result string;
  getRefreshTokenFromCookie : oauthProxy -> Context -> result string;
  getIdentity : oauthProxy -> Context -> result (userContext JWT);
  isExpired : userContext JWT -> bool;
  hasCustomSignInPage : Config -> bool;
  containedIn : string -> list string -> bool;
  defaultTo : string -> string -> string;
  mergeMaps : list (string * string) -> list (string * string) -> list (string * string);
  ClientIP : Context -> string;
  path_Base : string -> string;
  base64_DecodeString : string -> result string;       (* base64.StdEncoding *)
  QueryEscape : string -> string;                      (* url.QueryEscape *)
  NewRequest : string -> string -> string -> option error;   (* the err of http.NewRequest *)
  HttpClient_Do : oauthClient -> HttpRequest -> result HttpResponse
}.

Section Handlers.

Context `{E : Externals}.

(** *** gin, logrus and the helpers on the context *)

Definition Debugf (msg : string) : Handler unit := emit (Log DebugLevel msg).
Definition Infof (msg : string) : Handler unit := emit (Log InfoLevel msg).
Definition Warnf (msg : string) : Handler unit := emit (Log WarnLevel msg).
Definition Errorf (msg : string) : Handler unit := emit (Log ErrorLevel msg).

Definition cx_AbortWithStatus (code : Z) : Handler unit := emit (AbortWithStatus code).
Definition cx_AbortWithError (code : Z) (err : option error) : Handler unit :=
  emit (AbortWithError code err).
Definition cx_HTML (code : Z) (name : string) (model : list (string * string)) : Handler unit :=
  emit (HTML code name model).
Definition cx_JSON (code : Z) (body : tokenResponse) : Handler unit := emit (JSON code body).

(** [time.Now()] *)
Definition time_Now : Handler Time :=
  fun s => ({| events := events s; reads := S (reads s) |}, Some (clock (reads s))).

(** Modelled from the spec: [redirectToURL] is not in [handlers.go]; the
    specification gives the redirects of the flow handlers as 302 with the
    target as location. *)
Definition redirectToURL (url : string) : Handler unit :=
  emit (Redirect StatusFound url).

(** Modelled from the spec: [accessForbidden] is not in [handlers.go]; the
    specification answers a failed exchange, parse or verification with 403. *)
Definition accessForbidden : Handler unit :=
  emit (AbortWithStatus StatusForbidden).

Definition dropAccessTokenCookie (value : string) (ttl : Duration) : Handler unit :=
  emit (DropAccessTokenCookie value ttl).
Definition dropRefreshTokenCookie (value : string) (ttl : Duration) : Handler unit :=
  emit (DropRefreshTokenCookie value ttl).
Definition clearAllCookies : Handler unit := emit ClearAllCookies.

(** The calls that reach the provider or the store leave an event. *)
Definition r_getOAuthClient (r : oauthProxy) (redirection : string)
  : Handler (result oauthClient) :=
  emit (NewOAuthClient redirection) ;; ret (getOAuthClient r redirection).

Definition r_client_OAuthClient (r : oauthProxy) : Handler (result oauthClient) :=
  emit GetOAuthClient ;; ret (OAuthClient r).

Definition exchange (client : oauthClient) (code : string) : Handler (result TokenResponse) :=
  emit (ExchangeCode code) ;; ret (exchangeAuthenticationCode client code).

Definition client_UserCredsToken (client : oauthClient) (username password : string)
  : Handler (result TokenResponse) :=
  let answer := UserCredsToken client username password in
  emit (PasswordGrant username password answer) ;; ret answer.

Definition r_StoreRefreshToken (r : oauthProxy) (t : JWT) (encrypted : string)
  : Handler (option error) :=
  emit (StoreRefreshToken encrypted) ;; ret (saveRefreshToken r t encrypted).

Definition client_Do (client : oauthClient) (request : HttpRequest)
  : Handler (result HttpResponse) :=
  let answer := HttpClient_Do client request in
  emit (HttpDo request answer) ;; ret answer.

(** [request.SetBasicAuth] and [request.Header.Set("Content-Type", v)] *)
Definition SetBasicAuth (q : HttpRequest) (username password : string) : HttpRequest :=
  {| req_Method := req_Method q; req_URL := req_URL q; req_Body := req_Body q;
     req_BasicAuth := Some (username, password); req_ContentType := req_ContentType q |}.

Definition SetContentType (q : HttpRequest) (v : string) : HttpRequest :=
  {| req_Method := req_Method q; req_URL := req_URL q; req_Body := req_Body q;
     req_BasicAuth := req_BasicAuth q; req_ContentType := v |}.

(** *** handlers.go *)

(** [getRedirectionURL] returns the redirectionURL for the oauth flow. *)
Definition getRedirectionURL (r : oauthProxy) (cx : Context) : string :=
  let redirect :=
    if (RedirectionURL (config r) =? "")%string then
      let scheme := if Request_TLS cx then "https" else "http" in
      defaultTo (Header_Get cx "X-Forwarded-Proto") scheme ++ "://" ++
      defaultTo (Header_Get cx "X-Forwarded-Host") (Request_Host cx)
    else RedirectionURL (config r) in
  redirect ++ "/oauth/callback".

(** [oauthAuthorizationHandler] performs the redirection to the provider. *)
Definition oauthAuthorizationHandler (r : oauthProxy) (cx : Context) : Handler unit :=
  when (SkipTokenVerification (config r))
    (cx_AbortWithStatus StatusNotAcceptable ;; returns) ;;
  c <- r_getOAuthClient r (getRedirectionURL r cx) ;;
  client <- orElse c (fun err =>
    Errorf "failed to retrieve the oauth client for authorization" ;;
    cx_AbortWithStatus StatusInternalServerError) ;;
  let accessType := if containedIn "offline" (Scopes (config r)) then "offline" else "" in
  let authURL := AuthCodeURL client (Query cx "state") accessType "" in
  Debugf ("incoming authorization request from client address: " ++ ClientIP cx) ;;
  when (hasCustomSignInPage (config r))
    (cx_HTML StatusOK (path_Base (SignInPage (config r)))
       (mergeMaps [("redirect", authURL)] (Tags (config r))) ;;
     returns) ;;
  redirectToURL authURL.

(** The refresh cookie of an opaque refresh token: [time.Duration(240)*time.Hour]. *)
Definition opaqueRefreshExpiration : Duration := mulDuration 240%Z Hour.

(** [oauthCallbackHandler] handles the response from the provider. *)
Definition oauthCallbackHandler (r : oauthProxy) (cx : Context) : Handler unit :=
  when (SkipTokenVerification (config r))
    (cx_AbortWithStatus StatusNotAcceptable ;; returns) ;;
  let code := Query cx "code" in
  when (code =? "")%string
    (cx_AbortWithStatus StatusBadRequest ;; returns) ;;
  c <- r_getOAuthClient r (getRedirectionURL r cx) ;;
  client <- orElse c (fun err =>
    Errorf "unable to create a oauth2 client" ;;
    cx_AbortWithStatus StatusInternalServerError) ;;
  x <- exchange client code ;;
  resp <- orElse x (fun err =>
    Errorf "unable to exchange code for access token" ;;
    accessForbidden) ;;
  ti <- orElse (parseToken (resp_IDToken resp)) (fun err =>
    Errorf "unable to parse id token for identity" ;;
    accessForbidden) ;;
  match verifyToken r (fst ti) with
  | Some err => Errorf "unable to verify the id token" ;; accessForbidden ;; returns
  | None => ret tt
  end ;;
  ti <- match parseToken (resp_AccessToken resp) with
        | Err err =>
            Errorf "unable to parse the access token, using id token only" ;;
            ret ti
        | Ok (access, id) => ret (access, id)
        end ;;
  let token := fst ti in
  let ident := snd ti in
  now <- time_Now ;;
  Infof ("issuing access token for user, email: " ++ Email ident) ;;
  (if EnableRefreshTokens (config r) && negb (resp_RefreshToken resp =? "")%string then
     encrypted <- orElse (encodeText (resp_RefreshToken resp) (EncryptionKey (config r)))
       (fun err =>
          Errorf "failed to encrypt the refresh token" ;;
          cx_AbortWithStatus StatusInternalServerError) ;;
     dropAccessTokenCookie (Encode token)
       (getAccessCookieExpiration r token (resp_RefreshToken resp)) ;;
     if useStore r then
       s <- r_StoreRefreshToken r token encrypted ;;
       match s with
       | Some err => Warnf "failed to save the refresh token in the store"
       | None => ret tt
       end
     else
       match parseToken (resp_RefreshToken resp) with
       | Err err => dropRefreshTokenCookie encrypted opaqueRefreshExpiration
       | Ok (_, refreshIdent) =>
           now <- time_Now ;;
           dropRefreshTokenCookie encrypted (Sub (ExpiresAt refreshIdent) now)
       end
   else
     now <- time_Now ;;
     dropAccessTokenCookie (Encode token) (Sub (ExpiresAt ident) now)) ;;
  state <- (if negb (Query cx "state" =? "")%string then
              match base64_DecodeString (Query cx "state") with
              | Err err => Warnf "unable to decode the state parameter" ;; ret "/"
              | Ok decoded => ret decoded
              end
            else ret "/") ;;
  redirectToURL state.

(** [loginHandler]: a user_credentials login to the provider.  The closure
    of the source gives the message, the status and the error. *)
Definition loginAttempt (r : oauthProxy) (cx : Context) : Handler (string * Z * option error) :=
  if negb (EnableLoginHandler (config r)) then
    ret ("attempt to login when login handler is disabled", StatusNotImplemented,
         Some "login handler disabled")
  else
    let username := PostFormValue cx "username" in
    let password := PostFormValue cx "password" in
    if (username =? "")%string || (password =? "")%string then
      ret ("request does not have both username and password", StatusBadRequest,
           Some "no credentials")
    else
      c <- r_client_OAuthClient r ;;
      match c with
      | Err err =>
          ret ("unable to create the oauth client for user_credentials request",
               StatusInternalServerError, Some err)
      | Ok client =>
          t <- client_UserCredsToken client username password ;;
          match t with
          | Err err =>
              if HasPrefix err ErrorInvalidGrant then
                ret ("invalid user credentials provided", StatusUnauthorized, Some err)
              else
                ret ("unable to request the access token via grant_type 'password'",
                     StatusInternalServerError, Some err)
          | Ok tk =>
              match parseToken (resp_AccessToken tk) with
              | Err err =>
                  ret ("unable to decode the access token", StatusNotImplemented, Some err)
              | Ok (_, ident) =>
                  now <- time_Now ;;
                  dropAccessTokenCookie (resp_AccessToken tk) (Sub (ExpiresAt ident) now) ;;
                  cx_JSON StatusOK
                    {| json_IDToken := resp_IDToken tk;
                       json_AccessToken := resp_AccessToken tk;
                       json_RefreshToken := resp_RefreshToken tk;
                       json_ExpiresIn := resp_Expires tk;
                       json_Scope := resp_Scope tk |} ;;
                  ret ("", StatusOK, None)
              end
          end
      end.

Definition loginHandler (r : oauthProxy) (cx : Context) : Handler unit :=
  out <- loginAttempt r cx ;;
  let errorMsg := fst (fst out) in
  let code := snd (fst out) in
  match snd out with
  | Some err => Errorf errorMsg ;; cx_AbortWithStatus code
  | None => ret tt
  end.

(** [retrieveRefreshToken] retrieves the refresh token from store or cookie. *)
Definition retrieveRefreshToken (r : oauthProxy) (cx : Context) (user : userContext JWT)
  : result string :=
  let t := if useStore r then GetRefreshToken r (token user)
           else getRefreshTokenFromCookie r cx in
  match t with
  | Err err => Err err
  | Ok tk => decodeText tk (EncryptionKey (config r))
  end.

(** [logoutHandler] performs a logout. *)
Definition logoutHandler (r : oauthProxy) (cx : Context) : Handler unit :=
  let redirectURL := Query cx "redirect" in
  user <- orElse (getIdentity r cx) (fun err => cx_AbortWithStatus StatusBadRequest) ;;
  let identityToken :=
    match retrieveRefreshToken r cx user with
    | Ok refresh => refresh
    | Err _ => Encode (token user)
    end in
  clearAllCookies ;;
  when (useStore r) (emit SpawnDeleteRefreshToken) ;;
  let revocationURL :=
    defaultTo (RevocationEndpoint (config r)) (idp_EndSessionEndpoint r) in
  when (negb (revocationURL =? "")%string)
    (c <- r_client_OAuthClient r ;;
     client <- orElse c (fun err =>
       Errorf "unable to retrieve the openid client" ;;
       cx_AbortWithStatus StatusInternalServerError) ;;
     let encodedID := QueryEscape (ClientID (config r)) in
     let encodedSecret := QueryEscape (ClientSecret (config r)) in
     let body := "refresh_token=" ++ identityToken in
     match NewRequest "POST" revocationURL body with
     | Some err =>
         Errorf "unable to construct the revocation request" ;;
         cx_AbortWithStatus StatusInternalServerError ;; returns
     | None => ret tt
     end ;;
     let request :=
       {| req_Method := "POST"; req_URL := revocationURL; req_Body := body;
          req_BasicAuth := None; req_ContentType := "" |} in
     let request := SetBasicAuth request encodedID encodedSecret in
     let request := SetContentType request "application/x-www-form-urlencoded" in
     a <- client_Do client request ;;
     response <- orElse a (fun err => Errorf "unable to post to revocation endpoint") ;;
     if (StatusCode response =? StatusNoContent)%Z then
       Infof "successfully logged out of the endpoint"
     else
       Errorf "invalid response from revocation endpoint") ;;
  if negb (redirectURL =? "")%string then
    redirectToURL redirectURL ;; returns
  else
    cx_AbortWithStatus StatusOK.

(** The endpoint, the token and the request of the revocation, as
    [logoutHandler] computes them. *)
Definition revocationURL (r : oauthProxy) : string :=
  defaultTo (RevocationEndpoint (config r)) (idp_EndSessionEndpoint r).

Definition identityToken (r : oauthProxy) (cx : Context) (user : userContext JWT) : string :=
  match retrieveRefreshToken r cx user with
  | Ok refresh => refresh
  | Err _ => Encode (token user)
  end.

Definition revocationRequest (r : oauthProxy) (cx : Context) (user : userContext JWT)
  : HttpRequest :=
  {| req_Method := "POST";
     req_URL := revocationURL r;
     req_Body := "refresh_token=" ++ identityToken r cx user;
     req_BasicAuth := Some (QueryEscape (ClientID (config r)),
                            QueryEscape (ClientSecret (config r)));
     req_ContentType := "application/x-www-form-urlencoded" |}.

(** [expirationHandler] checks if the token has expired. *)
Definition expirationHandler (r : oauthProxy) (cx : Context) : Handler unit :=
  match getIdentity r cx with
  | Err err => cx_AbortWithError StatusUnauthorized (Some err) ;; returns
  | Ok user =>
      if isExpired user then
        cx_AbortWithError StatusUnauthorized None ;; returns
      else
        cx_AbortWithStatus StatusOK
  end.

End Handlers.

(** ** The words of the specification *)



(** The redirects of a run. *)
Definition redirects (tr : list event) : list string :=
  flat_map (fun e => match e with Redirect _ location => [location] | _ => [] end) tr.

(** Kinds of events. *)
Definition isRedirect (e : event) : bool :=
  match e with Redirect _ _ => true | _ => false end.

Definition isCookie (e : event) : bool :=
  match e with
  | DropAccessTokenCookie _ _ | DropRefreshTokenCookie _ _ => true
  | _ => false
  end.

Definition isAccessCookie (e : event) : bool :=
  match e with DropAccessTokenCookie _ _ => true | _ => false end.

Definition isCodeExchange (e : event) : bool :=
  match e with ExchangeCode _ => true | _ => false end.

Definition isClientConstruction (e : event) : bool :=
  match e with NewOAuthClient _ | GetOAuthClient => true | _ => false end.

Definition isRevocationPost (e : event) : bool :=
  match e with HttpDo _ _ => true | _ => false end.


Definition isErrorLog (e : event) : bool :=
  match e with Log ErrorLevel _ => true | _ => false end.

(** A response status that is no error. *)
Definition successful (code : Z) : bool := (code <? 400)%Z.

(** ** A provider and a store to run the handlers against *)

Module Testbed.

Definition alice : Identity := {| Email := "alice@example.com"; ExpiresAt := 9000%Z |}.
Definition aliceID : Identity := {| Email := "alice@id.example.com"; ExpiresAt := 8000%Z |}.
Definition aliceRefresh : Identity := {| Email := ""; ExpiresAt := 90000%Z |}.

(** Three tokens parse; every other string is malformed. *)
Definition parse (raw : string) : result (string * Identity) :=
  if (raw =? "id.alice")%string then Ok (raw, aliceID)
  else if (raw =? "access.alice")%string then Ok (raw, alice)
  else if (raw =? "refresh.alice")%string then Ok (raw, aliceRefresh)
  else Err "malformed token".

Definition tokens (access refresh : string) : TokenResponse :=
  {| resp_IDToken := "id.alice"; resp_AccessToken := access;
     resp_RefreshToken := refresh; resp_Expires := 300%Z; resp_Scope := "openid" |}.

(** The provider knows four authorization codes. *)
Definition codes (code : string) : result TokenResponse :=
  if (code =? "abc")%string then Ok (tokens "access.alice" "")
  else if (code =? "opaque")%string then Ok (tokens "access.alice" "0a1b2c")
  else if (code =? "jwt")%string then Ok (tokens "access.alice" "refresh.alice")
  else if (code =? "idonly")%string then Ok (tokens "not-a-jwt" "")
  else Err "invalid_grant: code not valid".

Definition password (username pass : string) : result TokenResponse :=
  if ((username =? "alice") && (pass =? "right"))%string
  then Ok (tokens "access.alice" "refresh.alice")
  else Err "invalid_grant: invalid user credentials".

(** The session travels in the [Authorization] header. *)
Definition session (cx : Context) : result (userContext string) :=
  if (Header_Get cx "Authorization" =? "Bearer access.alice")%string
  then Ok {| token := "access.alice"; email := "alice@example.com" |}
  else Err "no session".

(** The provider's endpoints: one revokes, one is down, the others
    answer 400. *)
Definition post (q : HttpRequest) : result HttpResponse :=
  if (req_URL q =? "https://idp.example/revoke")%string
  then Ok {| StatusCode := 204%Z; Body := "" |}
  else if (req_URL q =? "https://idp.example/down")%string
  then Err "dial tcp: connection refused"
  else Ok {| StatusCode := 400%Z; Body := "unknown endpoint" |}.

Definition world : Externals := {|
  oauthClient := string;
  JWT := string;
  Encode := fun t => t;
  clock := fun n => (1000 + Z.of_nat n)%Z;
  getOAuthClient := fun _ redirection => Ok redirection;
  OAuthClient := fun _ => Ok "client";
  AuthCodeURL := fun _ state _ _ => "https://idp.example/auth?state=" ++ state;
  exchangeAuthenticationCode := fun _ code => codes code;
  UserCredsToken := fun _ username pass => password username pass;
  parseToken := parse;
  verifyToken := fun _ _ => None;
  encodeText := fun text _ => Ok ("sealed:" ++ text);
  decodeText := fun text _ => Err "cipher: message authentication failed";
  getAccessCookieExpiration := fun _ _ _ => 300%Z;
  useStore := fun _ => false;
  saveRefreshToken := fun _ _ _ => None;
  GetRefreshToken := fun _ _ => Err "no store";
  getRefreshTokenFromCookie := fun _ _ => Err "no cookie";
  getIdentity := fun _ cx => session cx;
  isExpired := fun _ => false;
  hasCustomSignInPage := fun c => negb (SignInPage c =? "")%string;
  containedIn := fun v l => existsb (String.eqb v) l;
  defaultTo := fun v d => if (v =? "")%string then d else v;
  mergeMaps := fun dest source => (source ++ dest)%list;
  ClientIP := Request_RemoteAddr;
  path_Base := fun p => p;
  base64_DecodeString := Base64.DecodeString;
  QueryEscape := URL.QueryEscape;
  NewRequest := fun _ _ _ => None;
  HttpClient_Do := fun _ q => post q
|}.

Definition settings : Config := {|
  RedirectionURL := "https://proxy.example";
  SkipTokenVerification := false;
  Scopes := ["openid"; "email"];
  SignInPage := "";
  Tags := [];
  EnableRefreshTokens := true;
  EncryptionKey := "0123456789abcdef";
  EnableLoginHandler := true;
  RevocationEndpoint := "";
  ClientID := "proxy";
  ClientSecret := "s3cret/+"
|}.

Definition skipping : Config := {|
  RedirectionURL := RedirectionURL settings;
  SkipTokenVerification := true;
  Scopes := Scopes settings;
  SignInPage := SignInPage settings;
  Tags := Tags settings;
  EnableRefreshTokens := EnableRefreshTokens settings;
  EncryptionKey := EncryptionKey settings;
  EnableLoginHandler := EnableLoginHandler settings;
  RevocationEndpoint := RevocationEndpoint settings;
  ClientID := ClientID settings;
  ClientSecret := ClientSecret settings
|}.

(** A proxy whose provider publishes the given end-session endpoint. *)
Definition proxy (endSession : string) : oauthProxy :=
  {| config := settings; idp_EndSessionEndpoint := endSession |}.

Definition skippingProxy : oauthProxy :=
  {| config := skipping; idp_EndSessionEndpoint := "" |}.

(** A GET with the given query parameters, and Alice's session or none. *)
Definition get (loggedIn : bool) (query : list (string * string)) : Context :=
  {| Request_TLS := true;
     Request_Host := "proxy.example";
     Request_RemoteAddr := "192.0.2.7:4711";
     Request_Header :=
       if loggedIn then {[ "Authorization" := ["Bearer access.alice"] ]} else ∅;
     Request_Query := list_to_map (map (fun kv => (fst kv, [snd kv])) query);
     Request_PostForm := ∅ |}.

(** A POST with the given form. *)
Definition postForm (form : list (string * string)) : Context :=
  {| Request_TLS := true;
     Request_Host := "proxy.example";
     Request_RemoteAddr := "192.0.2.7:4711";
     Request_Header := ∅;
     Request_Query := ∅;
     Request_PostForm := list_to_map (map (fun kv => (fst kv, [snd kv])) form) |}.

End Testbed.

(** ** More kinds of events *)

Definition isStoreWrite (e : event) : bool :=
  match e with StoreRefreshToken _ => true | _ => false end.

Definition isRefreshCookie (e : event) : bool :=
  match e with DropRefreshTokenCookie _ _ => true | _ => false end.

Definition isPasswordGrant (e : event) : bool :=
  match e with PasswordGrant _ _ _ => true | _ => false end.

Definition isClearing (e : event) : bool :=
  match e with ClearAllCookies => true | _ => false end.

Definition isStoreDeletion (e : event) : bool :=
  match e with SpawnDeleteRefreshToken => true | _ => false end.

Definition isBody (e : event) : bool :=
  match e with JSON _ _ | HTML _ _ _ => true | _ => false end.

(** How many events of a kind a run has. *)
Definition count (kind : event -> bool) (tr : list event) : nat :=
  length (List.filter kind tr).

(** ** The diagnostic handlers *)

(** The handlers of [net/http/pprof] that [debugHandler] hands the request
    to. *)
Inductive pprofCall :=
| pprof_Handler (name : string)     (* pprof.Handler(name).ServeHTTP *)
| pprof_Cmdline
| pprof_Profile
| pprof_Trace
| pprof_Symbol.

(** What the diagnostic handlers do to the response: the events of the flow
    handlers, and the writes and calls that only they make. *)
Inductive output :=
| Flow (e : event)
| SetHeader (name value : string)            (* cx.Writer.Header().Set *)
| WriteString (code : Z) (body : string)     (* cx.String *)
| Pprof (call : pprofCall)
| Prometheus                                 (* r.prometheusHandler.ServeHTTP *)
| Abort.                                     (* cx.Abort *)

(** The status of the response: the one of the first write, the default 200
    when nothing is written, and [None] when the response is written by the
    handler the request was handed to. *)
Fixpoint outputStatus (out : list output) : option Z :=
  match out with
  | [] => Some StatusOK
  | Flow e :: out' =>
      match written e with
      | Some code => Some code
      | None => outputStatus out'
      end
  | WriteString code _ :: _ => Some code
  | Pprof _ :: _ | Prometheus :: _ => None
  | SetHeader _ _ :: out' | Abort :: out' => outputStatus out'
  end.

Definition StatusNotFound : Z := 404.

Section Diagnostics.

Context `{E : Externals}.

(** [user.token.Payload], the constants [versionHeader] and [version], the
    field [LocalhostMetrics] of the configuration, and
    [net.ParseIP(ip).IsLoopback()]. *)
Variable Payload : JWT -> string.
Variables versionHeader version : string.
Variable LocalhostMetrics : Config -> bool.
Variable IsLoopback : string -> bool.

(** The events of a flow helper, as output. *)
Definition flow (h : Handler unit) : list output := map Flow (run h).

(** [tokenHandler] displays the access token. *)
Definition tokenHandler (r : oauthProxy) (cx : Context) : list output :=
  match getIdentity r cx with
  | Err err =>
      flow (cx_AbortWithError StatusBadRequest
              (Some ("unable to retrieve session, error: " ++ err)))
  | Ok user =>
      [SetHeader "Content-Type" "application/json";
       WriteString StatusOK (Payload (token user))]
  end.

(** [healthHandler] is the health check of the service. *)
Definition healthHandler (r : oauthProxy) (cx : Context) : list output :=
  [SetHeader versionHeader version;
   WriteString StatusOK ("OK" ++ String "010"%char "")].

(** [debugHandler] provides the pprof handlers; [method] is
    [cx.Request.Method] and [name] is [cx.Param("name")].  The first four
    cases of the source fall through to the body of the fourth. *)
Definition debugHandler (method name : string) : list output :=
  (if (method =? "GET")%string then
     if (name =? "heap")%string || (name =? "goroutine")%string
        || (name =? "block")%string || (name =? "threadcreate")%string
     then [Pprof (pprof_Handler name)]
     else if (name =? "cmdline")%string then [Pprof pprof_Cmdline]
     else if (name =? "profile")%string then [Pprof pprof_Profile]
     else if (name =? "trace")%string then [Pprof pprof_Trace]
     else if (name =? "symbol")%string then [Pprof pprof_Symbol]
     else flow (cx_AbortWithStatus StatusNotFound)
   else if (method =? "POST")%string then
     if (name =? "symbol")%string then [Pprof pprof_Symbol]
     else flow (cx_AbortWithStatus StatusNotFound)
   else []) ++ [Abort].

(** [metricsHandler] forwards the request into the prometheus handler. *)
Definition metricsHandler (r : oauthProxy) (cx : Context) : list output :=
  if LocalhostMetrics (config r) && negb (IsLoopback (ClientIP cx))
  then flow accessForbidden
  else [Prometheus].

End Diagnostics.

(** ** A proxy with a store *)

Module Storebed.

(** Opens what [Testbed.world] seals. *)
Definition unseal (text : string) : result string :=
  if String.prefix "sealed:" text
  then Ok (String.substring 7 (String.length text - 7) text)
  else Err "cipher: message authentication failed".

(** The test provider, and a store that holds Alice's refresh token and
    takes no other; nothing can be sealed with an empty key. *)
Definition world : Externals := {|
  oauthClient := string;
  JWT := string;
  Encode := fun t => t;
  clock := fun n => (1000 + Z.of_nat n)%Z;
  getOAuthClient := fun _ redirection => Ok redirection;
  OAuthClient := fun _ => Ok "client";
  AuthCodeURL := fun _ state _ _ => "https://idp.example/auth?state=" ++ state;
  exchangeAuthenticationCode := fun _ code => Testbed.codes code;
  UserCredsToken := fun _ username pass => Testbed.password username pass;
  parseToken := Testbed.parse;
  verifyToken := fun _ _ => None;
  encodeText := fun text key =>
    if (key =? "")%string then Err "crypto/aes: invalid key size 0"
    else Ok ("sealed:" ++ text);
  decodeText := fun text _ => unseal text;
  getAccessCookieExpiration := fun _ _ _ => 300%Z;
  useStore := fun _ => true;
  saveRefreshToken := fun _ _ _ => Some "store: connection refused";
  GetRefreshToken := fun _ _ => Ok "sealed:refresh.alice";
  getRefreshTokenFromCookie := fun _ _ => Err "no cookie";
  getIdentity := fun _ cx => Testbed.session cx;
  isExpired := fun _ => true;
  hasCustomSignInPage := fun c => negb (SignInPage c =? "")%string;
  containedIn := fun v l => existsb (String.eqb v) l;
  defaultTo := fun v d => if (v =? "")%string then d else v;
  mergeMaps := fun dest source => (source ++ dest)%list;
  ClientIP := Request_RemoteAddr;
  path_Base := fun p => p;
  base64_DecodeString := Base64.DecodeString;
  QueryEscape := URL.QueryEscape;
  NewRequest := fun _ _ _ => None;
  HttpClient_Do := fun _ q => Testbed.post q
|}.

(** The settings of the test proxy, with no encryption key. *)
Definition keyless : Config := {|
  RedirectionURL := RedirectionURL Testbed.settings;
  SkipTokenVerification := false;
  Scopes := ["openid"; "offline"];
  SignInPage := SignInPage Testbed.settings;
  Tags := Tags Testbed.settings;
  EnableRefreshTokens := true;
  EncryptionKey := "";
  EnableLoginHandler := false;
  RevocationEndpoint := "https://idp.example/revoke";
  ClientID := ClientID Testbed.settings;
  ClientSecret := ClientSecret Testbed.settings
|}.

Definition keylessProxy : oauthProxy :=
  {| config := keyless; idp_EndSessionEndpoint := "" |}.

End Storebed.

(** * Properties *)

(** ** Go values *)

Lemma opaqueRefreshExpiration_hours : opaqueRefreshExpiration = (240 * Hour)%Z.
Proof. reflexivity. Qed.

Lemma Sub_exact (t u : Time) :
  (minDuration <= t - u <= maxDuration)%Z -> Sub t u = (t - u)%Z.
Proof.
  intros [Hlo Hhi]. unfold Sub.
  destruct (Z.ltb_spec (t - u) minDuration) as [H | _]; [lia |].
  destruct (Z.ltb_spec maxDuration (t - u)) as [H | _]; [lia | reflexivity].
Qed.

Lemma Values_Get_absent (m : gmap string (list string)) (key : string) :
  m !! key = None -> Values_Get m key = "".
Proof. intros H. unfold Values_Get. rewrite H. reflexivity. Qed.

(** A parameter that is absent from the query reads as the empty string. *)
Lemma Query_absent (cx : Context) (key : string) :
  Request_Query cx !! key = None -> Query cx key = "".
Proof. apply Values_Get_absent. Qed.

(** ** The base64 model *)

Section Base64Facts.

Import Base64.

Lemma decodeChar_encodeChar (v : N) :
  (v < 64)%N -> decodeChar (encodeChar v) = Some v.
Proof.
  intros Hv. rewrite <- (N2Nat.id v).
  assert (Hn : (N.to_nat v < 64)%nat) by lia.
  revert Hn. generalize (N.to_nat v). intros n Hn.
  do 64 (destruct n as [| n]; [reflexivity |]). lia.
Qed.

Lemma encodeChar_no_newline (v : N) :
  (v < 64)%N -> isNewline (encodeChar v) = false.
Proof.
  intros Hv. rewrite <- (N2Nat.id v).
  assert (Hn : (N.to_nat v < 64)%nat) by lia.
  revert Hn. generalize (N.to_nat v). intros n Hn.
  do 64 (destruct n as [| n]; [reflexivity |]). lia.
Qed.

Lemma sextet_bound (n : N) : (n mod 64 < 64)%N.
Proof. apply N.mod_lt. discriminate. Qed.

(** Four sextets of a 24-bit value give it back. *)
Lemma sextets_recombine (val : N) :
  (val < 16777216)%N ->
  (((val / 262144) mod 64) * 262144 + ((val / 4096) mod 64) * 4096 +
   ((val / 64) mod 64) * 64 + val mod 64 = val)%N.
Proof.
  intros Hval.
  pose proof (N.div_mod val 64 ltac:(discriminate)) as H0.
  pose proof (N.div_mod (val / 64) 64 ltac:(discriminate)) as H1.
  pose proof (N.div_mod (val / 4096) 64 ltac:(discriminate)) as H2.
  replace (val / 64 / 64)%N with (val / 4096)%N in H1
    by (rewrite N.Div0.div_div; reflexivity).
  replace (val / 4096 / 64)%N with (val / 262144)%N in H2
    by (rewrite N.Div0.div_div; reflexivity).
  assert (H3 : (val / 262144 < 64)%N)
    by (apply N.Div0.div_lt_upper_bound; exact Hval).
  rewrite (N.mod_small _ _ H3).
  revert H0 H1 H2.
  generalize (val mod 64)%N, ((val / 64) mod 64)%N, ((val / 4096) mod 64)%N,
    (val / 64)%N, (val / 4096)%N, (val / 262144)%N.
  intros. lia.
Qed.

(** The three bytes of a 24-bit value. *)
Lemma bytes_split (a b c : N) :
  (a < 256)%N -> (b < 256)%N -> (c < 256)%N ->
  (((a * 65536 + b * 256 + c) / 65536) mod 256 = a /\
   ((a * 65536 + b * 256 + c) / 256) mod 256 = b /\
   (a * 65536 + b * 256 + c) mod 256 = c)%N.
Proof.
  intros Ha Hb Hc.
  assert (H16 : ((a * 65536 + b * 256 + c) / 65536 = a)%N).
  { symmetry. apply (N.div_unique _ _ _ (b * 256 + c)%N); lia. }
  assert (H8 : ((a * 65536 + b * 256 + c) / 256 = a * 256 + b)%N).
  { symmetry. apply (N.div_unique _ _ _ c); lia. }
  rewrite H16, H8. repeat split.
  - apply N.mod_small. exact Ha.
  - symmetry. apply (N.mod_unique _ _ a); lia.
  - symmetry. apply (N.mod_unique _ _ (a * 256 + b)%N); lia.
Qed.

(** The low sextets of a value with no low byte, or no two low bytes. *)
Lemma low_sextet_zero (a b : N) : ((a * 65536 + b * 256) mod 64 = 0)%N.
Proof.
  replace (a * 65536 + b * 256)%N with ((a * 1024 + b * 4) * 64)%N by lia.
  apply N.Div0.mod_mul.
Qed.

Lemma low_sextets_zero (a : N) : (((a * 65536) / 64) mod 64 = 0)%N.
Proof.
  replace (a * 65536)%N with ((a * 1024) * 64)%N by lia.
  rewrite N.div_mul by discriminate.
  replace (a * 1024)%N with ((a * 16) * 64)%N by lia.
  apply N.Div0.mod_mul.
Qed.

Lemma byte_of_ascii (a : ascii) : byte (N_of_ascii a) = a.
Proof.
  unfold byte. rewrite N.mod_small by apply N_ascii_bounded.
  apply ascii_N_embedding.
Qed.

Ltac shifts :=
  rewrite ?N.shiftl_mul_pow2, ?N.shiftr_div_pow2;
  change (2 ^ 18)%N with 262144%N; change (2 ^ 16)%N with 65536%N;
  change (2 ^ 12)%N with 4096%N; change (2 ^ 8)%N with 256%N;
  change (2 ^ 6)%N with 64%N.

(** One byte, coded and decoded. *)
Lemma decode_encode_1 (a : ascii) : decodeQuanta (encodeQuanta [a]) = Some [a].
Proof.
  pose proof (N_ascii_bounded a) as Ha.
  cbn [encodeQuanta decodeQuanta].
  rewrite !decodeChar_encodeChar by apply sextet_bound.
  change (decodeChar padChar) with (@None N). cbn [isPad andb].
  change (Ascii.eqb padChar padChar) with true. cbn [andb].
  shifts.
  pose proof (sextets_recombine (N_of_ascii a * 65536) ltac:(lia)) as Hre.
  pose proof (low_sextet_zero (N_of_ascii a) 0) as Hw.
  rewrite N.mul_0_l, N.add_0_r in Hw.
  rewrite (low_sextets_zero (N_of_ascii a)), Hw in Hre.
  rewrite N.mul_0_l, !N.add_0_r in Hre. rewrite Hre.
  pose proof (bytes_split (N_of_ascii a) 0 0 Ha ltac:(lia) ltac:(lia)) as (H1 & _ & _).
  rewrite N.mul_0_l, !N.add_0_r in H1.
  unfold byte. rewrite H1, ascii_N_embedding. reflexivity.
Qed.

(** Two bytes. *)
Lemma decode_encode_2 (a b : ascii) : decodeQuanta (encodeQuanta [a; b]) = Some [a; b].
Proof.
  pose proof (N_ascii_bounded a) as Ha. pose proof (N_ascii_bounded b) as Hb.
  cbn [encodeQuanta decodeQuanta].
  rewrite !decodeChar_encodeChar by apply sextet_bound.
  change (decodeChar padChar) with (@None N).
  change (isPad padChar) with true. cbv iota.
  shifts.
  pose proof (sextets_recombine (N_of_ascii a * 65536 + N_of_ascii b * 256) ltac:(lia)) as Hre.
  rewrite (low_sextet_zero (N_of_ascii a) (N_of_ascii b)), N.add_0_r in Hre. rewrite Hre.
  pose proof (bytes_split (N_of_ascii a) (N_of_ascii b) 0 Ha Hb ltac:(lia)) as (H1 & H2 & _).
  rewrite !N.add_0_r in H1, H2.
  unfold byte. rewrite H1, H2, !ascii_N_embedding. reflexivity.
Qed.

(** Three bytes, before the rest of the input. *)
Lemma decode_encode_3 (a b c : ascii) (rest out : list ascii) :
  decodeQuanta (encodeQuanta rest) = Some out ->
  decodeQuanta (encodeQuanta (a :: b :: c :: rest)) = Some (a :: b :: c :: out).
Proof.
  intros IH.
  pose proof (N_ascii_bounded a) as Ha. pose proof (N_ascii_bounded b) as Hb.
  pose proof (N_ascii_bounded c) as Hc.
  cbn [encodeQuanta decodeQuanta].
  rewrite !decodeChar_encodeChar by apply sextet_bound.
  rewrite IH. shifts.
  rewrite (sextets_recombine (N_of_ascii a * 65536 + N_of_ascii b * 256 + N_of_ascii c))
    by lia.
  pose proof (bytes_split (N_of_ascii a) (N_of_ascii b) (N_of_ascii c) Ha Hb Hc)
    as (H1 & H2 & H3).
  unfold byte. rewrite H1, H2, H3, !ascii_N_embedding. reflexivity.
Qed.

(** Lists, three elements at a time. *)
Lemma list_by_threes {A : Type} (P : list A -> Prop) :
  P [] -> (forall a, P [a]) -> (forall a b, P [a; b]) ->
  (forall a b c l, P l -> P (a :: b :: c :: l)) ->
  forall l, P l.
Proof.
  intros H0 H1 H2 H3 l.
  assert (H : P l /\ (forall a, P (a :: l)) /\ (forall a b, P (a :: b :: l))).
  { induction l as [| x l (IHl & IHl1 & IHl2)].
    - auto.
    - split; [apply IHl1 |]. split; [intros a; apply IHl2 |].
      intros a b. apply H3. exact IHl. }
  exact (proj1 H).
Qed.

Lemma decodeQuanta_encodeQuanta (src : list ascii) :
  decodeQuanta (encodeQuanta src) = Some src.
Proof.
  induction src as [| a | a b | a b c rest IH] using list_by_threes.
  - reflexivity.
  - apply decode_encode_1.
  - apply decode_encode_2.
  - apply decode_encode_3. exact IH.
Qed.

(** The encoder writes no line breaks. *)
Lemma encodeQuanta_no_newline (src : list ascii) :
  List.filter (fun c => negb (isNewline c)) (encodeQuanta src) = encodeQuanta src.
Proof.
  induction src as [| a | a b | a b c rest IH] using list_by_threes;
    cbn [encodeQuanta List.filter];
    rewrite ?encodeChar_no_newline by apply sextet_bound;
    change (isNewline padChar) with false; cbn [negb];
    rewrite ?IH; reflexivity.
Qed.

(** Decoding gives back what was encoded. *)
Lemma DecodeString_EncodeToString (s : string) :
  DecodeString (EncodeToString s) = Ok s.
Proof.
  unfold DecodeString, EncodeToString.
  rewrite list_ascii_of_string_of_list_ascii, encodeQuanta_no_newline,
    decodeQuanta_encodeQuanta, string_of_list_ascii_of_string.
  reflexivity.
Qed.

(** Only the empty string has an empty encoding. *)
Lemma EncodeToString_nonempty (s : string) : s <> "" -> EncodeToString s <> "".
Proof.
  intros Hs. unfold EncodeToString.
  destruct s as [| a [| b [| c rest]]]; [contradiction | | |]; discriminate.
Qed.

End Base64Facts.

(** ** The handlers *)

Section Properties.

Context `{E : Externals}.

(** Unfolds a handler down to the events it appends. *)
Ltac expose :=
  unfold run, oauthAuthorizationHandler, oauthCallbackHandler, loginHandler, loginAttempt,
    logoutHandler, expirationHandler,
    r_getOAuthClient, r_client_OAuthClient, exchange, client_UserCredsToken,
    r_StoreRefreshToken, client_Do, redirectToURL, accessForbidden,
    dropAccessTokenCookie, dropRefreshTokenCookie, clearAllCookies,
    Debugf, Infof, Warnf, Errorf, cx_AbortWithStatus, cx_AbortWithError, cx_HTML, cx_JSON,
    time_Now, when, orElse, bind, ret, returns, emit, start in *;
  cbn [events reads fst snd app negb andb orb] in *.

(** Takes the branch of the next test the handler makes. *)
Ltac branch :=
  match goal with
  | |- context [match ?x with _ => _ end] =>
      lazymatch x with
      | context [match _ with _ => _ end] => fail
      | _ => destruct x eqn:?
      end
  end;
  cbn [events reads fst snd app negb andb orb] in *.

Ltac branches := repeat branch.

(** C10: with [skip_token_verification] set, the authorization handler and
    the callback handler answer 406 Not Acceptable at once: the abort is the
    only thing either of them does, so no OAuth client is constructed and no
    redirect is issued. *)
Theorem skip_verification_rejects (r : oauthProxy) (cx : Context) :
  SkipTokenVerification (config r) = true ->
  (run (oauthAuthorizationHandler r cx) = [AbortWithStatus StatusNotAcceptable] /\
   run (oauthCallbackHandler r cx) = [AbortWithStatus StatusNotAcceptable]) /\
  (responseStatus (run (oauthAuthorizationHandler r cx)) = 406%Z /\
   responseStatus (run (oauthCallbackHandler r cx)) = 406%Z) /\
  (existsb isClientConstruction (run (oauthAuthorizationHandler r cx)) = false /\
   existsb isClientConstruction (run (oauthCallbackHandler r cx)) = false) /\
  (redirects (run (oauthAuthorizationHandler r cx)) = [] /\
   redirects (run (oauthCallbackHandler r cx)) = []).
Proof.
  intros Hskip.
  assert (Ha : run (oauthAuthorizationHandler r cx) = [AbortWithStatus StatusNotAcceptable])
    by (expose; rewrite Hskip; reflexivity).
  assert (Hc : run (oauthCallbackHandler r cx) = [AbortWithStatus StatusNotAcceptable])
    by (expose; rewrite Hskip; reflexivity).
  rewrite Ha, Hc. repeat split; reflexivity.
Qed.

(** C9, as the code has it: a callback request whose [code] parameter is
    absent or empty is answered 400 Bad Request when token verification is
    not skipped (406 when it is, the check of the flag coming first); in
    both cases the abort is all the handler does: no code is exchanged, no
    cookie is issued and no redirect is sent. *)
Theorem callback_without_code (r : oauthProxy) (cx : Context) :
  Query cx "code" = "" ->
  (SkipTokenVerification (config r) = false ->
   run (oauthCallbackHandler r cx) = [AbortWithStatus StatusBadRequest] /\
   responseStatus (run (oauthCallbackHandler r cx)) = 400%Z) /\
  (SkipTokenVerification (config r) = true ->
   responseStatus (run (oauthCallbackHandler r cx)) = 406%Z) /\
  existsb isCodeExchange (run (oauthCallbackHandler r cx)) = false /\
  existsb isCookie (run (oauthCallbackHandler r cx)) = false /\
  redirects (run (oauthCallbackHandler r cx)) = [].
Proof.
  intros Hcode.
  assert (Hrun : run (oauthCallbackHandler r cx) =
                 [AbortWithStatus (if SkipTokenVerification (config r)
                                   then StatusNotAcceptable else StatusBadRequest)]).
  { expose. rewrite Hcode. destruct (SkipTokenVerification (config r)); reflexivity. }
  rewrite Hrun.
  destruct (SkipTokenVerification (config r)); repeat split; intros; congruence.
Qed.

(** C2: the expiration handler answers 200 exactly when an identity can be
    extracted from the request and its access token is not expired; with no
    identity, or with an expired token, it answers 401. *)
Theorem expiration_status (r : oauthProxy) (cx : Context) :
  (responseStatus (run (expirationHandler r cx)) = 200%Z <->
   exists user, getIdentity r cx = Ok user /\ isExpired user = false) /\
  ((forall user, getIdentity r cx = Ok user -> isExpired user = true) ->
   responseStatus (run (expirationHandler r cx)) = 401%Z) /\
  (responseStatus (run (expirationHandler r cx)) = 200%Z \/
   responseStatus (run (expirationHandler r cx)) = 401%Z).
Proof.
  expose.
  destruct (getIdentity r cx) as [user | err] eqn:Hid; cbn.
  - destruct (isExpired user) eqn:Hexp; cbn.
    + split; [split | split].
      * discriminate.
      * intros (u & Hu & Hne). congruence.
      * reflexivity.
      * right. reflexivity.
    + split; [split | split].
      * intros _. exists user. split; [reflexivity | assumption].
      * reflexivity.
      * intros H. specialize (H user eq_refl). congruence.
      * left. reflexivity.
  - split; [split | split].
    + discriminate.
    + intros (u & Hu & _). discriminate.
    + reflexivity.
    + right. reflexivity.
Qed.

(** Turns the tests on strings into equations. *)
Ltac tests :=
  repeat match goal with
  | H : negb _ = true |- _ => apply negb_true_iff in H
  | H : negb _ = false |- _ => apply negb_false_iff in H
  | H : (_ && _)%bool = true |- _ => apply andb_true_iff in H; destruct H
  | H : (_ =? _)%string = true |- _ => apply String.eqb_eq in H
  | H : (_ =? _)%string = false |- _ => apply String.eqb_neq in H
  | H : (_ =? _)%Z = true |- _ => apply Z.eqb_eq in H
  | H : (_ =? _)%Z = false |- _ => apply Z.eqb_neq in H
  end.

(** Closes the goal of one path through a handler. *)
Ltac path :=
  cbn in *; tests; subst; try discriminate;
  repeat match goal with
  | H1 : ?x = Ok _, H2 : ?x = _ |- _ => rewrite H1 in H2
  | H : @eq event _ _ |- _ => injection H; clear H; intros; subst
  | H : Ok _ = Ok _ |- _ => injection H as H; subst
  | H : Some _ = Some _ |- _ => injection H as H; subst
  | H : (_, _) = (_, _) |- _ => injection H as H; subst
  end;
  try congruence; try tauto.

(** Splits what is known of the members of a run. *)
Ltac members :=
  repeat match goal with
  | H : _ \/ _ |- _ => destruct H
  | H : False |- _ => contradiction
  end.


(** A run of the callback handler that issues the session cookie ends in
    the redirect to what the state decodes to. *)
Lemma callback_session_redirect (r : oauthProxy) (cx : Context) (decoded : string) :
  Query cx "state" <> "" ->
  base64_DecodeString (Query cx "state") = Ok decoded ->
  existsb isAccessCookie (run (oauthCallbackHandler r cx)) = true ->
  redirects (run (oauthCallbackHandler r cx)) = [decoded] /\
  responseStatus (run (oauthCallbackHandler r cx)) = 302%Z.
Proof.
  intros Hstate Hdecoded.
  apply String.eqb_neq in Hstate.
  expose. rewrite Hstate, Hdecoded.
  branches; cbn; try discriminate; intros _; split; reflexivity.
Qed.

(** X25: With the decoder of the Go library, every non-empty string is a target:
    the callback whose state is its base64 encoding is redirected to it. *)
Corollary callback_redirects_anywhere (r : oauthProxy) (cx : Context) (target : string) :
  (forall s, base64_DecodeString s = Base64.DecodeString s) ->
  target <> "" ->
  Query cx "state" = Base64.EncodeToString target ->
  existsb isAccessCookie (run (oauthCallbackHandler r cx)) = true ->
  redirects (run (oauthCallbackHandler r cx)) = [target].
Proof.
  intros Hgo Htarget Hstate Hsession.
  apply (callback_session_redirect r cx target); try assumption.
  - rewrite Hstate. apply EncodeToString_nonempty. exact Htarget.
  - rewrite Hgo, Hstate. apply DecodeString_EncodeToString.
Qed.



(** C4: the refresh cookie.  With refresh tokens enabled and no store, a
    refresh cookie of the callback handler lives 240 hours when the refresh
    token does not parse as a JWT; when it parses, the cookie lives for the
    expiry of the token minus the current time, as [Time.Sub] gives it with
    the clock read at that point (the difference itself, whenever it is a
    [Duration]).  The cookie is issued, with the sealed refresh token as its
    value, whenever the exchange gave a refresh token, the id token was
    parsed and verified, and the refresh token could be sealed. *)
Theorem callback_refresh_cookie_ttl (r : oauthProxy) (cx : Context)
    (client : oauthClient) (resp : TokenResponse) :
  EnableRefreshTokens (config r) = true ->
  useStore r = false ->
  getOAuthClient r (getRedirectionURL r cx) = Ok client ->
  exchangeAuthenticationCode client (Query cx "code") = Ok resp ->
  let tr := run (oauthCallbackHandler r cx) in
  (forall value ttl, In (DropRefreshTokenCookie value ttl) tr ->
     encodeText (resp_RefreshToken resp) (EncryptionKey (config r)) = Ok value /\
     match parseToken (resp_RefreshToken resp) with
     | Err _ => ttl = (240 * Hour)%Z
     | Ok (_, ident) =>
         ttl = Sub (ExpiresAt ident) (clock 1) /\
         ((minDuration <= ExpiresAt ident - clock 1 <= maxDuration)%Z ->
          ttl = (ExpiresAt ident - clock 1)%Z)
     end) /\
  (forall idToken idIdent encrypted,
     SkipTokenVerification (config r) = false ->
     Query cx "code" <> "" ->
     parseToken (resp_IDToken resp) = Ok (idToken, idIdent) ->
     verifyToken r idToken = None ->
     resp_RefreshToken resp <> "" ->
     encodeText (resp_RefreshToken resp) (EncryptionKey (config r)) = Ok encrypted ->
     (forall err, parseToken (resp_RefreshToken resp) = Err err ->
        In (DropRefreshTokenCookie encrypted (240 * Hour)%Z) tr) /\
     (forall t ident, parseToken (resp_RefreshToken resp) = Ok (t, ident) ->
        In (DropRefreshTokenCookie encrypted (Sub (ExpiresAt ident) (clock 1))) tr)).
Proof.
  intros Hrefresh Hstore Hclient Hresp tr. subst tr. split.
  - intros value ttl. expose. rewrite Hrefresh, Hstore, Hclient; cbn.
    rewrite Hresp; cbn.
    branches; cbn; intros Hin; members; path; auto using Sub_exact.
  - intros idToken idIdent encrypted Hskip Hcode Hid Hverify Hrt Hseal.
    apply String.eqb_neq in Hcode, Hrt.
    split.
    + intros err Hopaque. expose.
      rewrite Hskip, Hcode, Hclient; cbn. rewrite Hresp; cbn. rewrite Hid; cbn.
      rewrite Hverify, Hrefresh, Hrt; cbn. rewrite Hseal, Hstore; cbn.
      rewrite Hopaque.
      branches; cbn; auto 10.
    + intros t ident Hjwt. expose.
      rewrite Hskip, Hcode, Hclient; cbn. rewrite Hresp; cbn. rewrite Hid; cbn.
      rewrite Hverify, Hrefresh, Hrt; cbn. rewrite Hseal, Hstore; cbn.
      rewrite Hjwt.
      branches; cbn; auto 10.
Qed.

(** C7: the login handler, when enabled.  If the provider rejects the
    credentials with an invalid-grant error the response is 401 and no
    cookie is set.  If it accepts them and the access token parses, the
    handler sets the access cookie and then writes 200 with the JSON
    document of the access token, id token, refresh token, expiry and scope.
    The provider is asked whenever both credentials are present and the
    OAuth client is available. *)
Theorem login_response (r : oauthProxy) (cx : Context) :
  EnableLoginHandler (config r) = true ->
  let tr := run (loginHandler r cx) in
  (forall username password err,
     In (PasswordGrant username password (Err err)) tr ->
     HasPrefix err ErrorInvalidGrant = true ->
     tr = [GetOAuthClient; PasswordGrant username password (Err err);
           Log ErrorLevel "invalid user credentials provided";
           AbortWithStatus StatusUnauthorized] /\
     responseStatus tr = 401%Z) /\
  (forall username password tk t ident,
     In (PasswordGrant username password (Ok tk)) tr ->
     parseToken (resp_AccessToken tk) = Ok (t, ident) ->
     tr = [GetOAuthClient; PasswordGrant username password (Ok tk);
           DropAccessTokenCookie (resp_AccessToken tk) (Sub (ExpiresAt ident) (clock 0));
           JSON StatusOK {| json_IDToken := resp_IDToken tk;
                            json_AccessToken := resp_AccessToken tk;
                            json_RefreshToken := resp_RefreshToken tk;
                            json_ExpiresIn := resp_Expires tk;
                            json_Scope := resp_Scope tk |}] /\
     responseStatus tr = 200%Z) /\
  (forall client,
     PostFormValue cx "username" <> "" ->
     PostFormValue cx "password" <> "" ->
     OAuthClient r = Ok client ->
     In (PasswordGrant (PostFormValue cx "username") (PostFormValue cx "password")
           (UserCredsToken client (PostFormValue cx "username") (PostFormValue cx "password")))
        tr).
Proof.
  intros Henabled tr. subst tr. split; [| split].
  - intros username password err. expose. rewrite Henabled; cbn [negb].
    branches; cbn; intros Hin Hprefix; members; path; split; reflexivity.
  - intros username password tk t ident. expose. rewrite Henabled; cbn [negb].
    branches; cbn; intros Hin Hparse; members; path; split; reflexivity.
  - intros client Hu Hp Hclient. apply String.eqb_neq in Hu, Hp. expose.
    rewrite Henabled, Hu, Hp, Hclient; cbn.
    branches; cbn; auto.
Qed.

(** C5: a failed revocation does not fail the logout.  When the POST to
    the provider ends in a transport error, or is answered with a status
    other than 204, the handler logs the failure at the error level and
    nothing more comes of it: the cookies were cleared before the POST, and
    the response is no error (200, or the 302 of the redirect). *)
Theorem logout_swallows_revocation_failure (r : oauthProxy) (cx : Context)
    (q : HttpRequest) (answer : result HttpResponse) :
  In (HttpDo q answer) (run (logoutHandler r cx)) ->
  match answer with
  | Err _ => True
  | Ok response => StatusCode response <> StatusNoContent
  end ->
  let tr := run (logoutHandler r cx) in
  In ClearAllCookies tr /\
  In (Log ErrorLevel match answer with
                     | Err _ => "unable to post to revocation endpoint"
                     | Ok _ => "invalid response from revocation endpoint"
                     end) tr /\
  successful (responseStatus tr) = true /\
  (responseStatus tr = 200%Z \/
   responseStatus tr = 302%Z /\ redirects tr = [Query cx "redirect"]).
Proof.
  intros Hin Hfailed tr. subst tr. revert Hin. expose.
  branches; cbn; intros Hin; members; path; auto 10.
Qed.

(** C6, as the code has it.  A logout request with a valid session has its
    cookies cleared.  The revocation POST is sent when there is an endpoint
    to send it to (the configured revocation endpoint, else the end-session
    endpoint of the provider), the OAuth client is available and the request
    can be built: it goes to that endpoint, with the client id and secret as
    HTTP Basic credentials and the refresh token (else the access token) as
    body.  When the POST is answered, with any status, or when there is no
    endpoint, the response is the 302 to the [redirect] parameter, or 200
    when the parameter is absent or empty. *)
Theorem logout_with_session (r : oauthProxy) (cx : Context) (user : userContext JWT) :
  getIdentity r cx = Ok user ->
  let tr := run (logoutHandler r cx) in
  let answered :=
    (Query cx "redirect" <> "" ->
     responseStatus tr = 302%Z /\ redirects tr = [Query cx "redirect"]) /\
    (Query cx "redirect" = "" ->
     responseStatus tr = 200%Z /\ redirects tr = []) in
  In ClearAllCookies tr /\
  (revocationURL r = "" -> existsb isRevocationPost tr = false /\ answered) /\
  (forall client,
     revocationURL r <> "" ->
     OAuthClient r = Ok client ->
     NewRequest "POST" (revocationURL r) ("refresh_token=" ++ identityToken r cx user) = None ->
     In (HttpDo (revocationRequest r cx user)
                (HttpClient_Do client (revocationRequest r cx user))) tr /\
     (forall response,
        HttpClient_Do client (revocationRequest r cx user) = Ok response -> answered)).
Proof.
  intros Hid tr answered. subst answered tr.
  unfold revocationRequest, identityToken, revocationURL.
  split; [| split].
  - expose. rewrite Hid; cbn. branches; cbn; auto 10.
  - intros Hurl. expose. rewrite Hid, Hurl; cbn.
    branches; cbn; repeat split; intros; path.
  - intros client Hurl Hclient Hbuilt. apply String.eqb_neq in Hurl.
    expose. unfold SetContentType, SetBasicAuth.
    rewrite Hid; cbn. rewrite Hurl; cbn. rewrite Hclient; cbn. rewrite Hbuilt; cbn.
    split.
    + branches; cbn; auto 10.
    + intros response Hanswer. rewrite Hanswer; cbn.
      branches; cbn; repeat split; intros; path.
Qed.

Ltac pairs := repeat match goal with p : (_ * _)%type |- _ => destruct p end.

Ltac known := first [eassumption | reflexivity].

(** Takes in the goal the branch that a test is known to take. *)
Ltac settle :=
  cbn;
  repeat match goal with
  | H : ?x = _ |- context [match ?x with _ => _ end] => rewrite H
  end.

(** Takes apart what is known. *)
Ltac break :=
  repeat match goal with
  | H : exists _, _ |- _ => destruct H
  | H : _ /\ _ |- _ => destruct H
  | H : _ \/ _ |- _ => destruct H
  | H : False |- _ => contradiction
  end.

(** ** The callback handler, beyond the redirect *)

(** X1: Nothing of a session comes before the id token is verified: a run of
    the callback handler that sets a cookie, writes to the store or
    redirects is one where verification is on, the request had a code, the
    exchange gave tokens and the id token was parsed and verified. *)
Theorem callback_effects_need_verified_id_token (r : oauthProxy) (cx : Context) :
  existsb (fun e => isCookie e || isStoreWrite e || isRedirect e)
          (run (oauthCallbackHandler r cx)) = true ->
  SkipTokenVerification (config r) = false /\
  Query cx "code" <> "" /\
  exists client resp idToken idIdent,
    getOAuthClient r (getRedirectionURL r cx) = Ok client /\
    exchangeAuthenticationCode client (Query cx "code") = Ok resp /\
    parseToken (resp_IDToken resp) = Ok (idToken, idIdent) /\
    verifyToken r idToken = None.
Proof.
  expose. branches; cbn; try discriminate; intros _; pairs; tests;
    (split; [reflexivity || assumption |]); (split; [assumption |]);
    do 4 eexists; repeat split; eassumption.
Qed.

(** X2: The callback handler redirects exactly when it has issued the access
    cookie: the response is the 302 if and only if the cookie is set, and
    then there is one redirect; otherwise there is none. *)
Theorem callback_redirect_iff_session (r : oauthProxy) (cx : Context) :
  (existsb isAccessCookie (run (oauthCallbackHandler r cx)) = true <->
   responseStatus (run (oauthCallbackHandler r cx)) = 302%Z) /\
  (existsb isAccessCookie (run (oauthCallbackHandler r cx)) = true <->
   exists target, redirects (run (oauthCallbackHandler r cx)) = [target]) /\
  (existsb isAccessCookie (run (oauthCallbackHandler r cx)) = false ->
   redirects (run (oauthCallbackHandler r cx)) = []).
Proof.
  expose. branches; cbn; repeat split; intros; try discriminate; try reflexivity;
    try (eexists; reflexivity);
    try match goal with H : exists _, [] = [_] |- _ => destruct H; discriminate end.
Qed.

(** X3: The id token decides between session and refusal.  The callback
    handler answers with [accessForbidden] (403) exactly when, with
    verification on, a code in the request and an OAuth client, the exchange
    fails, or the id token does not parse, or its verification fails; the
    refusal is logged as an error and leaves no cookie, no store entry and
    no redirect. *)
Theorem callback_forbidden_iff_id_token_rejected (r : oauthProxy) (cx : Context) :
  (responseStatus (run (oauthCallbackHandler r cx)) = 403%Z <->
   SkipTokenVerification (config r) = false /\
   Query cx "code" <> "" /\
   exists client,
     getOAuthClient r (getRedirectionURL r cx) = Ok client /\
     ((exists err, exchangeAuthenticationCode client (Query cx "code") = Err err) \/
      (exists resp,
         exchangeAuthenticationCode client (Query cx "code") = Ok resp /\
         ((exists err, parseToken (resp_IDToken resp) = Err err) \/
          (exists idToken idIdent err,
             parseToken (resp_IDToken resp) = Ok (idToken, idIdent) /\
             verifyToken r idToken = Some err))))) /\
  (responseStatus (run (oauthCallbackHandler r cx)) = 403%Z ->
   existsb isErrorLog (run (oauthCallbackHandler r cx)) = true /\
   existsb isCookie (run (oauthCallbackHandler r cx)) = false /\
   existsb isStoreWrite (run (oauthCallbackHandler r cx)) = false /\
   redirects (run (oauthCallbackHandler r cx)) = []).
Proof.
  split; [split |].
  - expose. branches; cbn; try discriminate; intros _; pairs; tests;
      (split; [reflexivity || assumption |]); (split; [assumption |]);
      eauto 20.
  - intros (Hskip & Hcode & client & Hclient & Hrejected).
    apply String.eqb_neq in Hcode.
    expose. rewrite Hskip, Hcode, Hclient; cbn.
    destruct Hrejected as [[err Hx] | (resp & Hx & [[err Hp] | (t & i & err & Hp & Hv)])];
      rewrite Hx; cbn; try reflexivity; rewrite Hp; cbn; try reflexivity.
    rewrite Hv; cbn. reflexivity.
  - expose. branches; cbn; try discriminate; intros _; repeat split.
Qed.

(** X4: The two ways to a 500.  The callback handler answers 500 exactly when
    the OAuth client cannot be made, or when, after the id token was
    verified, the refresh token that is to be kept cannot be sealed; in both
    cases no cookie is set, not even the access cookie, nothing is written to
    the store and no redirect is sent. *)
Theorem callback_internal_error (r : oauthProxy) (cx : Context) :
  (responseStatus (run (oauthCallbackHandler r cx)) = 500%Z <->
   SkipTokenVerification (config r) = false /\
   Query cx "code" <> "" /\
   ((exists err, getOAuthClient r (getRedirectionURL r cx) = Err err) \/
    (exists client resp idToken idIdent err,
       getOAuthClient r (getRedirectionURL r cx) = Ok client /\
       exchangeAuthenticationCode client (Query cx "code") = Ok resp /\
       parseToken (resp_IDToken resp) = Ok (idToken, idIdent) /\
       verifyToken r idToken = None /\
       EnableRefreshTokens (config r) = true /\
       resp_RefreshToken resp <> "" /\
       encodeText (resp_RefreshToken resp) (EncryptionKey (config r)) = Err err))) /\
  (responseStatus (run (oauthCallbackHandler r cx)) = 500%Z ->
   existsb isCookie (run (oauthCallbackHandler r cx)) = false /\
   existsb isStoreWrite (run (oauthCallbackHandler r cx)) = false /\
   redirects (run (oauthCallbackHandler r cx)) = []).
Proof.
  split; [split |].
  - expose. branches; cbn; try discriminate; intros _; pairs; tests;
      (split; [reflexivity || assumption |]); (split; [assumption |]);
      eauto 20.
  - intros (Hskip & Hcode & Hfail).
    apply String.eqb_neq in Hcode.
    expose. rewrite Hskip, Hcode; cbn.
    destruct Hfail as [[err Hclient] |
                       (client & resp & t & i & err & Hclient & Hx & Hp & Hv & Hon & Hrt & Hseal)];
      rewrite Hclient; cbn; try reflexivity.
    apply String.eqb_neq in Hrt.
    rewrite Hx; cbn. rewrite Hp; cbn. rewrite Hv; cbn. rewrite Hon, Hrt; cbn.
    rewrite Hseal. branches; reflexivity.
  - expose. branches; cbn; try discriminate; intros _; repeat split.
Qed.

(** X5: A refresh cookie holds the sealed token, never the token itself: a
    refresh cookie of the callback handler is only set with refresh tokens
    enabled and no store, for a non-empty refresh token of the exchange, and
    its value is what [encodeText] made of that token with the configured
    key. *)
Theorem callback_refresh_cookie_is_sealed (r : oauthProxy) (cx : Context)
    (value : string) (ttl : Duration) :
  In (DropRefreshTokenCookie value ttl) (run (oauthCallbackHandler r cx)) ->
  EnableRefreshTokens (config r) = true /\
  useStore r = false /\
  exists client resp,
    getOAuthClient r (getRedirectionURL r cx) = Ok client /\
    exchangeAuthenticationCode client (Query cx "code") = Ok resp /\
    resp_RefreshToken resp <> "" /\
    encodeText (resp_RefreshToken resp) (EncryptionKey (config r)) = Ok value.
Proof.
  expose. branches; cbn; intros Hin; members; path; pairs; tests;
    repeat split; eauto 10.
Qed.



(** ** The authorization handler *)

(** X8: With verification on and an OAuth client, the authorization handler
    sends the browser to the authorization URL of the provider, made of the
    [state] parameter as the request has it and of the access type
    ["offline"] when the scopes hold it (none otherwise); with a custom
    sign-in page it renders the page, with the URL under [redirect] in the
    model, and sends no redirect. *)
Theorem authorize_sends_to_provider (r : oauthProxy) (cx : Context) (client : oauthClient) :
  SkipTokenVerification (config r) = false ->
  getOAuthClient r (getRedirectionURL r cx) = Ok client ->
  let accessType := if containedIn "offline" (Scopes (config r)) then "offline" else "" in
  let authURL := AuthCodeURL client (Query cx "state") accessType "" in
  let tr := run (oauthAuthorizationHandler r cx) in
  (hasCustomSignInPage (config r) = false ->
   redirects tr = [authURL] /\ responseStatus tr = 302%Z) /\
  (hasCustomSignInPage (config r) = true ->
   redirects tr = [] /\ responseStatus tr = 200%Z /\
   In (HTML StatusOK (path_Base (SignInPage (config r)))
            (mergeMaps [("redirect", authURL)] (Tags (config r)))) tr).
Proof.
  intros Hskip Hclient accessType authURL tr. subst tr authURL accessType.
  expose. rewrite Hskip, Hclient; cbn.
  split; intros Hpage; rewrite Hpage; cbn; repeat split; auto 10.
Qed.

(** X9: The authorization handler starts no session: whatever the request and
    the configuration, it sets no cookie, exchanges no code, asks for no
    password grant, writes nothing to the store, posts nothing to the
    provider and clears no cookie; it redirects once at most; and when the
    OAuth client cannot be made it answers 500 and does not redirect. *)
Theorem authorize_starts_no_session (r : oauthProxy) (cx : Context) :
  existsb (fun e => isCookie e || isCodeExchange e || isPasswordGrant e || isStoreWrite e ||
                    isStoreDeletion e || isRevocationPost e || isClearing e)
          (run (oauthAuthorizationHandler r cx)) = false /\
  (count isRedirect (run (oauthAuthorizationHandler r cx)) <= 1)%nat /\
  (SkipTokenVerification (config r) = false ->
   forall err, getOAuthClient r (getRedirectionURL r cx) = Err err ->
     responseStatus (run (oauthAuthorizationHandler r cx)) = 500%Z /\
     redirects (run (oauthAuthorizationHandler r cx)) = []).
Proof.
  unfold count. split; [| split].
  - expose. branches; reflexivity.
  - expose. branches; cbn; lia.
  - intros Hskip err Hclient. expose. rewrite Hskip, Hclient; cbn. split; reflexivity.
Qed.

(** X10: One redirection URL for the whole flow.  With a redirection URL
    configured, the client of the authorization handler and the client of
    the callback handler are made for the same URL, the configured one with
    [/oauth/callback] behind it, whatever the two requests are (their host,
    TLS and forwarding headers play no part). *)
Theorem flow_uses_configured_redirection (r : oauthProxy) (cx1 cx2 : Context) (u1 u2 : string) :
  RedirectionURL (config r) <> "" ->
  In (NewOAuthClient u1) (run (oauthAuthorizationHandler r cx1)) ->
  In (NewOAuthClient u2) (run (oauthCallbackHandler r cx2)) ->
  u1 = (RedirectionURL (config r) ++ "/oauth/callback")%string /\ u2 = u1.
Proof.
  intros Hset H1 H2.
  apply String.eqb_neq in Hset.
  assert (Hurl : forall cx, getRedirectionURL r cx
                            = (RedirectionURL (config r) ++ "/oauth/callback")%string).
  { intros cx. unfold getRedirectionURL. rewrite Hset. reflexivity. }
  assert (Hu1 : u1 = getRedirectionURL r cx1).
  { revert H1. expose. branches; cbn; intros Hin; members; path. }
  assert (Hu2 : u2 = getRedirectionURL r cx2).
  { revert H2. expose. branches; cbn; intros Hin; members; path. }
  rewrite Hu1, Hu2, !Hurl. split; reflexivity.
Qed.


(** ** The login handler *)

(** X11: The provider is asked only for a complete request to an enabled
    handler.  The login handler gets the OAuth client, and goes on to the
    password grant, exactly when it is enabled and the form has a non-empty
    [username] and a non-empty [password]; disabled, it answers 501, and
    enabled with a credential missing, 400, and then the error log and the
    abort are all it does. *)
Theorem login_asks_provider_iff_complete (r : oauthProxy) (cx : Context) :
  (In GetOAuthClient (run (loginHandler r cx)) <->
   EnableLoginHandler (config r) = true /\
   PostFormValue cx "username" <> "" /\ PostFormValue cx "password" <> "") /\
  (EnableLoginHandler (config r) = false ->
   run (loginHandler r cx) =
   [Log ErrorLevel "attempt to login when login handler is disabled";
    AbortWithStatus StatusNotImplemented]) /\
  (EnableLoginHandler (config r) = true ->
   PostFormValue cx "username" = "" \/ PostFormValue cx "password" = "" ->
   run (loginHandler r cx) =
   [Log ErrorLevel "request does not have both username and password";
    AbortWithStatus StatusBadRequest]).
Proof.
  split; [split | split].
  - expose. branches; cbn; intros Hin; members; path;
      repeat match goal with
      | H : (_ || _)%bool = false |- _ => apply orb_false_iff in H; destruct H
      end; tests; auto.
  - intros (Hon & Hu & Hp). apply String.eqb_neq in Hu, Hp.
    expose. rewrite Hon, Hu, Hp; cbn. branches; cbn; auto.
  - intros Hoff. expose. rewrite Hoff. reflexivity.
  - intros Hon Hmissing. expose. rewrite Hon; cbn.
    assert (Htest : ((PostFormValue cx "username" =? "")
                     || (PostFormValue cx "password" =? ""))%string = true).
    { apply orb_true_iff.
      destruct Hmissing as [H | H]; [left | right]; apply String.eqb_eq; exact H. }
    rewrite Htest. reflexivity.
Qed.

(** X12: Cookie, body and status go together.  The login handler sets the
    access cookie exactly when it answers 200, which is exactly when it
    writes the JSON document; every other run is logged once as an error and
    carries no cookie and no body.  No run sets a refresh cookie, redirects,
    exchanges a code, clears cookies or touches the store. *)
Theorem login_cookie_iff_ok (r : oauthProxy) (cx : Context) :
  (existsb isAccessCookie (run (loginHandler r cx)) = true <->
   responseStatus (run (loginHandler r cx)) = 200%Z) /\
  (existsb isBody (run (loginHandler r cx)) = true <->
   responseStatus (run (loginHandler r cx)) = 200%Z) /\
  (responseStatus (run (loginHandler r cx)) <> 200%Z <->
   count isErrorLog (run (loginHandler r cx)) = 1%nat) /\
  (responseStatus (run (loginHandler r cx)) = 200%Z ->
   count isErrorLog (run (loginHandler r cx)) = 0%nat) /\
  existsb (fun e => isRefreshCookie e || isRedirect e || isCodeExchange e || isClearing e ||
                    isStoreWrite e || isStoreDeletion e || isRevocationPost e)
          (run (loginHandler r cx)) = false.
Proof.
  unfold count. expose.
  branches; cbn; repeat split; intros; try discriminate; try reflexivity; try congruence;
    exfalso; match goal with H : _ <> _ |- _ => apply H; reflexivity end.
Qed.

(** X13: The statuses of a login.  401 is the answer exactly when the provider
    refused the grant with an error that starts with [invalid_grant]; 500
    exactly when the OAuth client cannot be had or the provider failed in
    another way; 501 exactly when the handler is disabled or when the
    provider granted an access token that does not parse (and then the
    tokens are not handed out). *)
Theorem login_statuses (r : oauthProxy) (cx : Context) :
  (responseStatus (run (loginHandler r cx)) = 401%Z <->
   exists username password err,
     In (PasswordGrant username password (Err err)) (run (loginHandler r cx)) /\
     HasPrefix err ErrorInvalidGrant = true) /\
  (responseStatus (run (loginHandler r cx)) = 500%Z <->
   In GetOAuthClient (run (loginHandler r cx)) /\
   ((exists err, OAuthClient r = Err err) \/
    (exists username password err,
       In (PasswordGrant username password (Err err)) (run (loginHandler r cx)) /\
       HasPrefix err ErrorInvalidGrant = false))) /\
  (responseStatus (run (loginHandler r cx)) = 501%Z <->
   EnableLoginHandler (config r) = false \/
   (exists username password tk err,
      In (PasswordGrant username password (Ok tk)) (run (loginHandler r cx)) /\
      parseToken (resp_AccessToken tk) = Err err)).
Proof.
  expose.
  branches; cbn; repeat split; intros; try discriminate; try reflexivity;
    break; path; eauto 12.
Qed.

(** ** The logout handler *)

(** X14: Logout needs a session.  The logout handler answers 400 exactly when no
    identity can be extracted from the request, and then the abort is all it
    does: no cookie is cleared, nothing is revoked and the [redirect]
    parameter is not followed.  With an identity the first thing it does is
    to clear the cookies. *)
Theorem logout_needs_session (r : oauthProxy) (cx : Context) :
  (responseStatus (run (logoutHandler r cx)) = 400%Z <->
   exists err, getIdentity r cx = Err err) /\
  (forall err, getIdentity r cx = Err err ->
     run (logoutHandler r cx) = [AbortWithStatus StatusBadRequest]) /\
  (forall user, getIdentity r cx = Ok user ->
     exists rest, run (logoutHandler r cx) = ClearAllCookies :: rest).
Proof.
  split; [split | split].
  - expose. branches; cbn; try discriminate; eauto.
  - intros [err Herr]. expose. rewrite Herr. reflexivity.
  - intros err Herr. expose. rewrite Herr. reflexivity.
  - intros user Huser. expose. rewrite Huser; cbn. branches; cbn; eauto.
Qed.

(** X15: The entry in the store goes with the cookies.  For a request with a
    session, the deletion of the refresh token from the store is started if
    and only if the proxy has a store, right after the cookies are cleared
    and before anything is asked of the provider; it is started once, and
    its outcome is not waited for. *)
Theorem logout_drops_store_entry (r : oauthProxy) (cx : Context) (user : userContext JWT) :
  getIdentity r cx = Ok user ->
  (In SpawnDeleteRefreshToken (run (logoutHandler r cx)) <-> useStore r = true) /\
  (useStore r = true ->
   exists rest, run (logoutHandler r cx) = ClearAllCookies :: SpawnDeleteRefreshToken :: rest /\
                existsb isStoreDeletion rest = false) /\
  (count isClearing (run (logoutHandler r cx)) = 1)%nat.
Proof.
  intros Huser. unfold count. split; [split | split].
  - expose. rewrite Huser; cbn.
    branches; cbn; intros Hin; members; path.
  - intros Hstore. expose. rewrite Huser, Hstore; cbn. branches; cbn; auto.
  - intros Hstore. expose. rewrite Huser, Hstore; cbn.
    branches; cbn; eexists; split; reflexivity.
  - expose. rewrite Huser; cbn. branches; reflexivity.
Qed.

(** X16: What is posted.  A run of the logout handler posts to the provider
    once at most, and a POST it sends is the revocation request of the
    session: to the revocation URL, which is not empty, with the escaped
    client id and secret as Basic credentials, the form content type, and
    as body the refresh token when one can be retrieved and decoded, the
    access token otherwise; its answer is the one of the client's HTTP
    client. *)
Theorem logout_posts_revocation_only (r : oauthProxy) (cx : Context)
    (q : HttpRequest) (answer : result HttpResponse) :
  In (HttpDo q answer) (run (logoutHandler r cx)) ->
  (count isRevocationPost (run (logoutHandler r cx)) = 1)%nat /\
  revocationURL r <> "" /\
  exists user client,
    getIdentity r cx = Ok user /\
    OAuthClient r = Ok client /\
    q = revocationRequest r cx user /\
    answer = HttpClient_Do client q /\
    req_Body q = ("refresh_token=" ++
                  match retrieveRefreshToken r cx user with
                  | Ok refresh => refresh
                  | Err _ => Encode (token user)
                  end)%string.
Proof.
  unfold count, revocationRequest, identityToken, revocationURL.
  expose. unfold SetContentType, SetBasicAuth.
  branches; cbn; intros Hin; members; path; tests;
    (split; [reflexivity |]); (split; [assumption |]);
    do 2 eexists; repeat split; try known; try congruence;
    settle; reflexivity.
Qed.

(** X17: A logout that fails half way.  Once the cookies are cleared, the
    handler answers 500 exactly when there is a revocation URL and the OAuth
    client cannot be had or the revocation request cannot be built; nothing
    is posted then and the [redirect] parameter is not followed, but the
    cookies stay cleared. *)
Theorem logout_internal_error (r : oauthProxy) (cx : Context) :
  (responseStatus (run (logoutHandler r cx)) = 500%Z <->
   exists user,
     getIdentity r cx = Ok user /\
     revocationURL r <> "" /\
     ((exists err, OAuthClient r = Err err) \/
      (exists client err,
         OAuthClient r = Ok client /\
         NewRequest "POST" (revocationURL r)
           ("refresh_token=" ++ identityToken r cx user) = Some err))) /\
  (responseStatus (run (logoutHandler r cx)) = 500%Z ->
   In ClearAllCookies (run (logoutHandler r cx)) /\
   existsb isRevocationPost (run (logoutHandler r cx)) = false /\
   redirects (run (logoutHandler r cx)) = []).
Proof.
  unfold identityToken, revocationURL. split; [split |].
  - expose. branches; cbn; try discriminate; intros _; tests;
      eexists; (split; [reflexivity |]); (split; [assumption |]); settle; eauto 10.
  - intros (user & Huser & Hurl & Hfail). apply String.eqb_neq in Hurl.
    expose. rewrite Huser; cbn. rewrite Hurl; cbn.
    destruct Hfail as [[err Hclient] | (client & err & Hclient & Hbuild)];
      rewrite Hclient; cbn.
    + branches; reflexivity.
    + rewrite Hbuild. branches; reflexivity.
  - expose. branches; cbn; try discriminate; intros _; repeat split; auto.
Qed.

(** X18: A revocation that cannot be sent ends the handler.  When the POST
    ends in a transport error the handler returns after the error log: the
    [redirect] parameter is not followed even when the request has one, and
    the response is the 200 of a handler that wrote nothing. *)
Theorem logout_transport_error_ends_run (r : oauthProxy) (cx : Context)
    (q : HttpRequest) (err : error) :
  In (HttpDo q (Err err)) (run (logoutHandler r cx)) ->
  redirects (run (logoutHandler r cx)) = [] /\
  responseStatus (run (logoutHandler r cx)) = 200%Z /\
  existsb (fun e => match written e with Some _ => true | None => false end)
          (run (logoutHandler r cx)) = false /\
  exists before,
    run (logoutHandler r cx) =
    (before ++ [HttpDo q (Err err);
                Log ErrorLevel "unable to post to revocation endpoint"])%list.
Proof.
  expose. unfold SetContentType, SetBasicAuth.
  branches; cbn; intros Hin; members; path;
    repeat split;
    first [ exists [ClearAllCookies; GetOAuthClient]; reflexivity
          | exists [ClearAllCookies; SpawnDeleteRefreshToken; GetOAuthClient]; reflexivity ].
Qed.


(** X20: Where a logout leads, and what it leaves alone.  Every redirect of
    the logout handler goes to the [redirect] parameter of the request, as
    it is; there is one at most.  No run sets a cookie, exchanges a code,
    asks for a password grant, writes to the store or writes a body. *)
Theorem logout_redirects_to_parameter (r : oauthProxy) (cx : Context) :
  (forall target, In target (redirects (run (logoutHandler r cx))) ->
     target = Query cx "redirect" /\ target <> "") /\
  (count isRedirect (run (logoutHandler r cx)) <= 1)%nat /\
  existsb (fun e => isCookie e || isCodeExchange e || isPasswordGrant e ||
                    isStoreWrite e || isBody e)
          (run (logoutHandler r cx)) = false.
Proof.
  unfold count. split; [| split].
  - intros target. expose.
    branches; cbn; intros Hin; members; tests; subst; split; auto.
  - expose. branches; cbn; lia.
  - expose. branches; reflexivity.
Qed.


(** ** The diagnostic handlers *)

Section Diagnostic.

Variable Payload : JWT -> string.
Variable LocalhostMetrics : Config -> bool.
Variable IsLoopback : string -> bool.

(** X22: The token handler shows the claims of any session, expired or not.  It
    answers 200 with the payload of the token whenever an identity can be
    extracted, so wherever the expiration handler answers 200, and also for
    an expired token, where the expiration handler answers 401; it answers
    400 exactly where the logout handler does. *)
Theorem token_shown_for_any_session (r : oauthProxy) (cx : Context) :
  (outputStatus (tokenHandler Payload r cx) = Some 200%Z <->
   exists user, getIdentity r cx = Ok user) /\
  (forall user, getIdentity r cx = Ok user ->
     tokenHandler Payload r cx =
     [SetHeader "Content-Type" "application/json";
      WriteString StatusOK (Payload (token user))]) /\
  (responseStatus (run (expirationHandler r cx)) = 200%Z ->
   outputStatus (tokenHandler Payload r cx) = Some 200%Z) /\
  (forall user, getIdentity r cx = Ok user -> isExpired user = true ->
     responseStatus (run (expirationHandler r cx)) = 401%Z /\
     outputStatus (tokenHandler Payload r cx) = Some 200%Z) /\
  (outputStatus (tokenHandler Payload r cx) = Some 400%Z <->
   responseStatus (run (logoutHandler r cx)) = 400%Z).
Proof.
  unfold tokenHandler, flow.
  split; [| split; [| split; [| split]]].
  - destruct (getIdentity r cx) as [user | err]; cbn; split;
      [eauto | reflexivity | discriminate | intros [user Huser]; discriminate].
  - intros user Huser. rewrite Huser. reflexivity.
  - expose. destruct (getIdentity r cx) as [user | err]; cbn; [reflexivity |].
    discriminate.
  - intros user Huser Hexpired. expose. rewrite Huser, Hexpired. cbn. split; reflexivity.
  - expose. destruct (getIdentity r cx) as [user | err]; cbn.
    + branches; cbn; split; discriminate.
    + split; reflexivity.
Qed.

(** X23: Metrics behind the loopback.  With [LocalhostMetrics] set, the
    prometheus handler gets the request if and only if the address of the
    client is a loopback address; every other client is refused with
    [accessForbidden] and prometheus is not called.  Without the setting
    every request is served. *)
Theorem metrics_served_iff_allowed (r : oauthProxy) (cx : Context) :
  (In Prometheus (metricsHandler LocalhostMetrics IsLoopback r cx) <->
   LocalhostMetrics (config r) = false \/ IsLoopback (ClientIP cx) = true) /\
  (LocalhostMetrics (config r) = true -> IsLoopback (ClientIP cx) = false ->
   metricsHandler LocalhostMetrics IsLoopback r cx = [Flow (AbortWithStatus StatusForbidden)] /\
   outputStatus (metricsHandler LocalhostMetrics IsLoopback r cx) = Some 403%Z).
Proof.
  unfold metricsHandler, flow. expose.
  destruct (LocalhostMetrics (config r)), (IsLoopback (ClientIP cx)); cbn;
    repeat split; intros; break; try discriminate; auto.
Qed.

End Diagnostic.

(** X24: What the debug handler serves.  A pprof handler gets the request only
    for GET and POST: for GET, the profile named in the path when it is one
    of [heap], [goroutine], [block] and [threadcreate], and the handlers of
    [cmdline], [profile], [trace] and [symbol]; for POST, [symbol] alone.
    Any other name under GET or POST is answered 404.  A request of another
    method is handed to nobody and nothing is written for it, so that it is
    answered with the default 200.  The chain is aborted in every case. *)
Theorem debug_serves (method name : string) :
  (forall call, In (Pprof call) (debugHandler method name) ->
     (method = "GET" /\
      (call = pprof_Handler name /\
       In name ["heap"; "goroutine"; "block"; "threadcreate"] \/
       call = pprof_Cmdline /\ name = "cmdline" \/
       call = pprof_Profile /\ name = "profile" \/
       call = pprof_Trace /\ name = "trace" \/
       call = pprof_Symbol /\ name = "symbol")) \/
     (method = "POST" /\ call = pprof_Symbol /\ name = "symbol")) /\
  (outputStatus (debugHandler method name) = Some 404%Z <->
   (method = "GET" \/ method = "POST") /\
   forall call, ~ In (Pprof call) (debugHandler method name)) /\
  (method <> "GET" -> method <> "POST" ->
   debugHandler method name = [Abort] /\
   outputStatus (debugHandler method name) = Some 200%Z) /\
  List.last (debugHandler method name) Abort = Abort.
Proof.
  unfold debugHandler, flow. expose.
  destruct (String.eqb_spec method "GET") as [-> | HnG];
    [| destruct (String.eqb_spec method "POST") as [-> | HnP]];
    repeat match goal with
    | |- context [(name =? ?s)%string] => destruct (String.eqb_spec name s) as [-> | ?]
    end;
    cbn; repeat split; intros; break; subst;
    try discriminate; try congruence;
    repeat match goal with
    | H : Pprof _ = Pprof _ |- _ => injection H as <-
    end;
    auto 10;
    try (intuition congruence);
    match goal with
    | H : forall call, ~ _ |- _ => exfalso; eapply H; cbn; left; reflexivity
    end.
Qed.

End Properties.

(** ** The handlers against the test provider *)

Module Runs.

Import Testbed.

(** The handlers over the test provider. *)
Definition authorize := oauthAuthorizationHandler (E := world).
Definition callback := oauthCallbackHandler (E := world).
Definition login := loginHandler (E := world).
Definition logout := logoutHandler (E := world).
Definition expiration := expirationHandler (E := world).

(** Scenario 2 of the specification: the callback with a code and the
    state of [/protected]. *)
Example callback_scenario :
  run (callback (proxy "") (get false [("code", "abc"); ("state", "L3Byb3RlY3RlZA==")])) =
  [NewOAuthClient "https://proxy.example/oauth/callback";
   ExchangeCode "abc";
   Log InfoLevel "issuing access token for user, email: alice@example.com";
   DropAccessTokenCookie "access.alice" 7999%Z;
   Redirect 302%Z "/protected"].
Proof. vm_compute. reflexivity. Qed.

(** Scenario 5: logout with a session and a revocation endpoint. *)
Example logout_scenario :
  run (logout (proxy "https://idp.example/revoke") (get true [("redirect", "/bye")])) =
  [ClearAllCookies; GetOAuthClient;
   HttpDo {| req_Method := "POST"; req_URL := "https://idp.example/revoke";
             req_Body := "refresh_token=access.alice";
             req_BasicAuth := Some ("proxy", "s3cret%2F%2B");
             req_ContentType := "application/x-www-form-urlencoded" |}
          (Ok {| StatusCode := 204%Z; Body := "" |});
   Log InfoLevel "successfully logged out of the endpoint";
   Redirect 302%Z "/bye"].
Proof. vm_compute. reflexivity. Qed.

(** C10 at the proxy that skips verification. *)
Lemma skip_verification_rejects_run :
  SkipTokenVerification (config skippingProxy) = true /\
  run (authorize skippingProxy (get false [("state", "L3Byb3RlY3RlZA==")])) =
    [AbortWithStatus 406%Z] /\
  run (callback skippingProxy (get false [("code", "abc")])) = [AbortWithStatus 406%Z].
Proof.
  split; [reflexivity |]. split.
  - exact (proj1 (proj1 (skip_verification_rejects (E := world) skippingProxy
                           (get false [("state", "L3Byb3RlY3RlZA==")]) eq_refl))).
  - exact (proj2 (proj1 (skip_verification_rejects (E := world) skippingProxy
                           (get false [("code", "abc")]) eq_refl))).
Defined.

(** C9 as stated fails where verification is skipped: the request has no
    [code] and the answer is 406, not 400. *)
Lemma callback_without_code_not_400 :
  Query (get false [("state", "L3Byb3RlY3RlZA==")]) "code" = "" /\
  responseStatus (run (callback skippingProxy (get false [("state", "L3Byb3RlY3RlZA==")])))
    = 406%Z /\
  responseStatus (run (callback skippingProxy (get false [("state", "L3Byb3RlY3RlZA==")])))
    <> StatusBadRequest.
Proof. vm_compute. repeat split; congruence. Qed.

(** C9 as amended, at a request without [code]. *)
Lemma callback_without_code_run :
  Query (get false [("state", "L3Byb3RlY3RlZA==")]) "code" = "" /\
  responseStatus (run (callback (proxy "") (get false [("state", "L3Byb3RlY3RlZA==")])))
    = 400%Z /\
  redirects (run (callback (proxy "") (get false [("state", "L3Byb3RlY3RlZA==")]))) = [].
Proof.
  split; [reflexivity |].
  pose proof (callback_without_code (E := world) (proxy "")
                (get false [("state", "L3Byb3RlY3RlZA==")]) eq_refl) as (H400 & _ & _ & _ & Hred).
  split; [exact (proj2 (H400 eq_refl)) | exact Hred].
Defined.

(** C2 with and without a session. *)
Lemma expiration_status_run :
  responseStatus (run (expiration (proxy "") (get true []))) = 200%Z /\
  responseStatus (run (expiration (proxy "") (get false []))) = 401%Z.
Proof.
  split.
  - apply (proj1 (expiration_status (E := world) (proxy "") (get true []))).
    eexists. split; reflexivity.
  - apply (proj1 (proj2 (expiration_status (E := world) (proxy "") (get false [])))).
    intros user Huser. discriminate Huser.
Defined.








(** C4 at an opaque refresh token and at one that is a JWT. *)
Lemma callback_refresh_cookie_ttl_run :
  In (DropRefreshTokenCookie "sealed:0a1b2c" (240 * Hour)%Z)
     (run (callback (proxy "") (get false [("code", "opaque")]))) /\
  In (DropRefreshTokenCookie "sealed:refresh.alice"
        (Sub (ExpiresAt aliceRefresh) (@clock world 1)))
     (run (callback (proxy "") (get false [("code", "jwt")]))).
Proof.
  split.
  - pose proof (callback_refresh_cookie_ttl (E := world) (proxy "")
                  (get false [("code", "opaque")])
                  "https://proxy.example/oauth/callback" (tokens "access.alice" "0a1b2c")
                  eq_refl eq_refl eq_refl eq_refl) as [_ Hissued].
    apply (proj1 (Hissued "id.alice" aliceID "sealed:0a1b2c"
                    eq_refl ltac:(vm_compute; discriminate) eq_refl eq_refl
                    ltac:(vm_compute; discriminate) eq_refl) "malformed token").
    reflexivity.
  - pose proof (callback_refresh_cookie_ttl (E := world) (proxy "")
                  (get false [("code", "jwt")])
                  "https://proxy.example/oauth/callback"
                  (tokens "access.alice" "refresh.alice")
                  eq_refl eq_refl eq_refl eq_refl) as [_ Hissued].
    apply (proj2 (Hissued "id.alice" aliceID "sealed:refresh.alice"
                    eq_refl ltac:(vm_compute; discriminate) eq_refl eq_refl
                    ltac:(vm_compute; discriminate) eq_refl) "refresh.alice").
    reflexivity.
Defined.

(** The revocation request of Alice's logout, for a given endpoint. *)
Definition revocation (endpoint : string) : HttpRequest :=
  {| req_Method := "POST"; req_URL := endpoint;
     req_Body := "refresh_token=access.alice";
     req_BasicAuth := Some ("proxy", "s3cret%2F%2B");
     req_ContentType := "application/x-www-form-urlencoded" |}.

(** C5 at a provider that is down. *)
Lemma logout_swallows_revocation_failure_run :
  In ClearAllCookies
     (run (logout (proxy "https://idp.example/down") (get true [("redirect", "/bye")]))) /\
  successful (responseStatus
     (run (logout (proxy "https://idp.example/down") (get true [("redirect", "/bye")]))))
  = true.
Proof.
  pose proof (logout_swallows_revocation_failure (E := world)
                (proxy "https://idp.example/down") (get true [("redirect", "/bye")])
                (revocation "https://idp.example/down") (Err "dial tcp: connection refused")
                ltac:(vm_compute; auto 10) I) as (Hcleared & _ & Hok & _).
  split; [exact Hcleared | exact Hok].
Defined.

(** C6 as stated fails where there is no endpoint to revoke at: Alice has
    a session and asks for a redirect, and no POST is sent. *)
Lemma logout_without_endpoint_sends_no_post :
  (exists user, getIdentity (Externals := world) (proxy "") (get true [("redirect", "/bye")])
                = Ok user) /\
  Query (get true [("redirect", "/bye")]) "redirect" = "/bye" /\
  existsb isRevocationPost (run (logout (proxy "") (get true [("redirect", "/bye")])))
  = false /\
  (forall q answer,
     ~ In (HttpDo q answer) (run (logout (proxy "") (get true [("redirect", "/bye")])))).
Proof.
  split; [| split; [| split]].
  - eexists. vm_compute. reflexivity.
  - vm_compute. reflexivity.
  - vm_compute. reflexivity.
  - intros q answer. vm_compute. intros Hin.
    repeat (destruct Hin as [Hin | Hin]; [discriminate Hin |]). exact Hin.
Qed.

(** C6 as amended, at the revocation endpoint of the test provider. *)
Lemma logout_with_session_run :
  In ClearAllCookies
     (run (logout (proxy "https://idp.example/revoke") (get true [("redirect", "/bye")]))) /\
  In (HttpDo (revocation "https://idp.example/revoke")
             (Ok {| StatusCode := 204%Z; Body := "" |}))
     (run (logout (proxy "https://idp.example/revoke") (get true [("redirect", "/bye")]))) /\
  responseStatus
     (run (logout (proxy "https://idp.example/revoke") (get true [("redirect", "/bye")])))
  = 302%Z /\
  redirects
     (run (logout (proxy "https://idp.example/revoke") (get true [("redirect", "/bye")])))
  = ["/bye"].
Proof.
  pose proof (logout_with_session (E := world)
                (proxy "https://idp.example/revoke") (get true [("redirect", "/bye")])
                {| token := "access.alice"; email := "alice@example.com" |} eq_refl)
    as (Hcleared & _ & Hpost).
  destruct (Hpost "client" ltac:(vm_compute; discriminate) eq_refl eq_refl)
    as [Hsent Hanswered].
  destruct (Hanswered {| StatusCode := 204%Z; Body := "" |} eq_refl) as [Hredirect _].
  destruct (Hredirect ltac:(vm_compute; discriminate)) as [Hstatus Htarget].
  split; [exact Hcleared |]. split; [exact Hsent |]. split; [exact Hstatus | exact Htarget].
Defined.

(** C7 at a wrong and at the right password. *)
Lemma login_response_run :
  responseStatus
    (run (login (proxy "") (postForm [("username", "alice"); ("password", "wrong")])))
  = 401%Z /\
  responseStatus
    (run (login (proxy "") (postForm [("username", "alice"); ("password", "right")])))
  = 200%Z /\
  In (DropAccessTokenCookie "access.alice" (Sub (ExpiresAt alice) (@clock world 0)))
    (run (login (proxy "") (postForm [("username", "alice"); ("password", "right")]))).
Proof.
  split; [| split].
  - pose proof (login_response (E := world) (proxy "")
                  (postForm [("username", "alice"); ("password", "wrong")]) eq_refl)
      as (Hrejected & _ & _).
    apply (Hrejected "alice" "wrong" "invalid_grant: invalid user credentials").
    + vm_compute. auto.
    + reflexivity.
  - pose proof (login_response (E := world) (proxy "")
                  (postForm [("username", "alice"); ("password", "right")]) eq_refl)
      as (_ & Haccepted & _).
    apply (Haccepted "alice" "right" (tokens "access.alice" "refresh.alice")
             "access.alice" alice).
    + vm_compute. auto.
    + reflexivity.
  - pose proof (login_response (E := world) (proxy "")
                  (postForm [("username", "alice"); ("password", "right")]) eq_refl)
      as (_ & Haccepted & _).
    destruct (Haccepted "alice" "right" (tokens "access.alice" "refresh.alice")
                "access.alice" alice ltac:(vm_compute; auto) eq_refl) as [Hrun _].
    unfold login. rewrite Hrun. cbn. auto.
Defined.

End Runs.

(** ** More runs *)

Module MoreRuns.

Import Testbed.

(** The callback with a store that is down: the sealed token is offered
    to the store, the failure is a warning, and the run ends in the
    redirect. *)
Example callback_store_down :
  run (oauthCallbackHandler (E := Storebed.world) (proxy "")
         (get false [("code", "jwt"); ("state", "L3Byb3RlY3RlZA==")])) =
  [NewOAuthClient "https://proxy.example/oauth/callback";
   ExchangeCode "jwt";
   Log InfoLevel "issuing access token for user, email: alice@example.com";
   DropAccessTokenCookie "access.alice" 300%Z;
   StoreRefreshToken "sealed:refresh.alice";
   Log WarnLevel "failed to save the refresh token in the store";
   Redirect 302%Z "/protected"].
Proof. vm_compute. reflexivity. Qed.

(** The callback when the refresh token cannot be sealed. *)
Example callback_keyless :
  run (oauthCallbackHandler (E := Storebed.world) Storebed.keylessProxy
         (get false [("code", "jwt")])) =
  [NewOAuthClient "https://proxy.example/oauth/callback";
   ExchangeCode "jwt";
   Log InfoLevel "issuing access token for user, email: alice@example.com";
   Log ErrorLevel "failed to encrypt the refresh token";
   AbortWithStatus 500%Z].
Proof. vm_compute. reflexivity. Qed.

(** The logout of a proxy with a store: the refresh token of the store is
    what is revoked. *)
Example logout_with_store :
  run (logoutHandler (E := Storebed.world) Storebed.keylessProxy
         (get true [("redirect", "/bye")])) =
  [ClearAllCookies; SpawnDeleteRefreshToken; GetOAuthClient;
   HttpDo {| req_Method := "POST"; req_URL := "https://idp.example/revoke";
             req_Body := "refresh_token=refresh.alice";
             req_BasicAuth := Some ("proxy", "s3cret%2F%2B");
             req_ContentType := "application/x-www-form-urlencoded" |}
          (Ok {| StatusCode := 204%Z; Body := "" |});
   Log InfoLevel "successfully logged out of the endpoint";
   Redirect 302%Z "/bye"].
Proof. vm_compute. reflexivity. Qed.

Definition opaqueCallback : Context := get false [("code", "opaque")].

Lemma callback_effects_need_verified_id_token_run :
  getOAuthClient (Externals := world) (proxy "")
    (getRedirectionURL (E := world) (proxy "") opaqueCallback)
  = Ok "https://proxy.example/oauth/callback" /\
  Query opaqueCallback "code" <> "".
Proof.
  destruct (callback_effects_need_verified_id_token (E := world) (proxy "") opaqueCallback
              ltac:(vm_compute; reflexivity)) as (_ & Hcode & _).
  split; [reflexivity | exact Hcode].
Defined.

Lemma callback_refresh_cookie_is_sealed_run :
  EnableRefreshTokens (config (proxy "")) = true /\
  useStore (Externals := world) (proxy "") = false.
Proof.
  destruct (callback_refresh_cookie_is_sealed (E := world) (proxy "") opaqueCallback
              "sealed:0a1b2c" (240 * Hour)%Z ltac:(vm_compute; auto 10))
    as (Hon & Hstore & _).
  split; [exact Hon | exact Hstore].
Defined.


Lemma authorize_sends_to_provider_run :
  redirects (run (oauthAuthorizationHandler (E := world) (proxy "")
                    (get false [("state", "L3Byb3RlY3RlZA==")])))
  = ["https://idp.example/auth?state=L3Byb3RlY3RlZA=="].
Proof.
  destruct (authorize_sends_to_provider (E := world) (proxy "")
              (get false [("state", "L3Byb3RlY3RlZA==")])
              "https://proxy.example/oauth/callback" eq_refl eq_refl) as [Hredirect _].
  exact (proj1 (Hredirect eq_refl)).
Defined.

Lemma flow_uses_configured_redirection_run :
  "https://proxy.example/oauth/callback" =
  (RedirectionURL (config (proxy "")) ++ "/oauth/callback")%string.
Proof.
  apply (flow_uses_configured_redirection (E := world) (proxy "")
           (get false [("state", "L3Byb3RlY3RlZA==")]) opaqueCallback
           "https://proxy.example/oauth/callback" "https://proxy.example/oauth/callback").
  - vm_compute. discriminate.
  - vm_compute. auto.
  - vm_compute. auto.
Defined.

Definition aliceSession : userContext string :=
  {| token := "access.alice"; email := "alice@example.com" |}.

Lemma logout_drops_store_entry_run :
  In SpawnDeleteRefreshToken
     (run (logoutHandler (E := Storebed.world) Storebed.keylessProxy
             (get true [("redirect", "/bye")]))) /\
  ~ In SpawnDeleteRefreshToken
     (run (logoutHandler (E := world) (proxy "") (get true [("redirect", "/bye")]))).
Proof.
  split.
  - apply (proj1 (logout_drops_store_entry (E := Storebed.world) Storebed.keylessProxy
                    (get true [("redirect", "/bye")]) aliceSession eq_refl)).
    reflexivity.
  - intros Hin.
    apply (proj1 (logout_drops_store_entry (E := world) (proxy "")
                    (get true [("redirect", "/bye")]) aliceSession eq_refl)) in Hin.
    discriminate Hin.
Defined.

Lemma logout_posts_revocation_only_run :
  revocationURL (E := world) (proxy "https://idp.example/revoke") <> "" /\
  count isRevocationPost
    (run (logoutHandler (E := world) (proxy "https://idp.example/revoke") (get true []))) = 1%nat.
Proof.
  destruct (logout_posts_revocation_only (E := world) (proxy "https://idp.example/revoke")
              (get true []) (Runs.revocation "https://idp.example/revoke")
              (Ok {| StatusCode := 204%Z; Body := "" |})
              ltac:(vm_compute; auto 10)) as (Hone & Hurl & _).
  split; [exact Hurl | exact Hone].
Defined.

Lemma logout_transport_error_ends_run_run :
  redirects (run (logoutHandler (E := world) (proxy "https://idp.example/down")
                    (get true [("redirect", "/bye")]))) = [] /\
  responseStatus (run (logoutHandler (E := world) (proxy "https://idp.example/down")
                         (get true [("redirect", "/bye")]))) = 200%Z.
Proof.
  destruct (logout_transport_error_ends_run (E := world) (proxy "https://idp.example/down")
              (get true [("redirect", "/bye")]) (Runs.revocation "https://idp.example/down")
              "dial tcp: connection refused" ltac:(vm_compute; auto 10))
    as (Hnone & Hstatus & _).
  split; [exact Hnone | exact Hstatus].
Defined.


(** The state of a long URL with a query: the callback leads there. *)
Lemma callback_redirects_anywhere_run :
  redirects
    (run (oauthCallbackHandler (E := world) (proxy "")
            (get false [("code", "abc");
                        ("state", Base64.EncodeToString "/reports?year=2017&q=a+b")])))
  = ["/reports?year=2017&q=a+b"].
Proof.
  apply (callback_redirects_anywhere (E := world) (proxy "")
           (get false [("code", "abc");
                       ("state", Base64.EncodeToString "/reports?year=2017&q=a+b")])
           "/reports?year=2017&q=a+b").
  - intros s. reflexivity.
  - discriminate.
  - vm_compute. reflexivity.
  - vm_compute. reflexivity.
Defined.

End MoreRuns.
